(** * SpiralWaveformOp: the TensorFlow kernel around [calculate_spiral_trajectory]

    A shallow embedding of [tensorflow_mri/cc/kernels/traj_kernels.cc].  The
    kernel reads nine attributes when it is constructed; [Compute] allocates a
    temporary [SWF_MAX_WAVEFORM_SIZE x 2] float tensor, lets the generator of
    the spiral_waveform library fill it, turns a nonzero return value into an
    [Internal] error and otherwise publishes the first [waveform_length] rows
    as output 0.

    The generator and the capacity constant come from
    [third_party/spiral_waveform/include/spiral_waveform.h], which is not part
    of the sources at hand: both are parameters of the development.  What the
    kernel uses of TensorFlow ([Status], [Tensor], [OpKernelContext], the
    [OP_REQUIRES] macros) is written out below as far as [Compute] and the
    constructor exercise it. *)

From Stdlib Require Import ZArith Lia.
From Stdlib Require Import Floats.SpecFloat.
From stdpp Require Import gmap strings list.

Local Open Scope Z_scope.

(** ** Scalars *)

(** C++ [float] and [double] are IEEE 754 binary32 and binary64.  Both are
    carried by [spec_float]; what tells them apart is the format a value is
    canonical in, [valid_binary 24 128] or [valid_binary 53 1024]. *)
Definition float32 : Type := spec_float.
Definition double : Type := spec_float.

Definition is_float32 (x : spec_float) : bool := valid_binary 24 128 x.
Definition is_double (x : spec_float) : bool := valid_binary 53 1024 x.

(** [(double) x] for a [float] [x]: the same value, re-expressed in binary64.
    Zeros, infinities and NaN map to themselves; a finite number is
    re-normalised to a 53 bit significand.  [spec_float] has a single NaN:
    the payload of a NaN, which the real conversion carries over (quieting a
    signalling NaN), is not represented, so nothing below tells two NaNs
    apart. *)
Definition float_to_double (x : float32) : double :=
  match x with
  | S754_finite s m e => binary_round 53 1024 s m e
  | _ => x
  end.

(** [(long) x] for an [int] [x]: every [int] is a [long], the value is kept. *)
Definition long_of_int (x : Z) : Z := x.

(** The range of a 32 bit [int]. *)
Definition is_int32 (x : Z) : bool := (- 2 ^ 31 <=? x) && (x <? 2 ^ 31).

(** The real number a finite [spec_float] stands for is [m * 2 ^ e]; two
    finite floats stand for the same number when, brought to the smaller of
    the two exponents, their significands agree. *)
Definition same_value (x y : spec_float) : Prop :=
  match x, y with
  | S754_finite sx mx ex, S754_finite sy my ey =>
      sx = sy /\ Z.pos mx * 2 ^ (ex - Z.min ex ey) = Z.pos my * 2 ^ (ey - Z.min ex ey)
  | _, _ => x = y
  end.

(** [y] is what [x] is widened to: for a binary32 number [x], a binary64
    number of the same value. *)
Definition widened (x : float32) (y : double) : Prop :=
  is_float32 x = true → is_double y = true ∧ same_value x y.

(** ** TensorFlow: status values *)

Inductive Code : Set :=
  | OK
  | INVALID_ARGUMENT
  | NOT_FOUND
  | RESOURCE_EXHAUSTED
  | INTERNAL.

Record Status : Set := mkStatus { code : Code; error_message : string }.

Definition Status_OK : Status := mkStatus OK "".

Definition ok (s : Status) : bool :=
  match code s with OK => true | _ => false end.

(** [Status::Update]: the first error sticks. *)
Definition Update (old new : Status) : Status := if ok old then new else old.

Module errors.
Definition Internal (msg : string) : Status := mkStatus INTERNAL msg.
Definition InvalidArgument (msg : string) : Status := mkStatus INVALID_ARGUMENT msg.
Definition NotFound (msg : string) : Status := mkStatus NOT_FOUND msg.
Definition ResourceExhausted (msg : string) : Status := mkStatus RESOURCE_EXHAUSTED msg.
End errors.

(** ** TensorFlow: tensors and the memory behind them *)

Inductive DataType : Set := DT_FLOAT | DT_DOUBLE | DT_INT32 | DT_INT64.

Definition DataTypeSize (t : DataType) : Z :=
  match t with
  | DT_FLOAT | DT_INT32 => 4
  | DT_DOUBLE | DT_INT64 => 8
  end.

(** A [TensorShape] is the list of its dimension sizes. *)
Definition TensorShape : Type := list Z.

Definition num_elements (s : TensorShape) : Z := foldr Z.mul 1 s.

(** One element of a buffer.  Memory straight from the allocator holds no
    value yet ([None]); the only element type the kernel stores is [float].
    [None] stands for contents that are indeterminate in the real program:
    two elements that were never written need not hold the same bits. *)
Definition cell : Type := option float32.

(** A tensor is a typed, shaped window [(root, offset, count)] on a buffer:
    [count] elements of buffer [root], starting [offset] elements in.  A
    tensor without elements has no buffer.  Windows share their root buffer:
    [Slice] and copies of a [Tensor] alias the same memory. *)
Record Tensor : Type := mkTensor {
  dtype : DataType;
  shape : TensorShape;
  buf : option (positive * Z * Z)
}.

(** [Tensor t;] as it is default-constructed: an empty one-dimensional float
    tensor. *)
Definition Tensor_default : Tensor :=
  {| dtype := DT_FLOAT; shape := [0]; buf := None |}.

(** The allocator: the buffers handed out so far, by identifier, and the
    number of bytes it can still hand out.  Returning buffers to the allocator
    (the reference counting of [TensorBuffer]) is not modelled. *)
Record Memory : Type := mkMemory {
  heap : gmap positive (list cell);
  bytes_free : Z
}.

(** [Allocator::AllocateRaw]: a buffer that did not exist before, or nothing
    (the null pointer) when the request exceeds what is left. *)
Definition AllocateRaw (elems : Z) (elem_size : Z) (m : Memory)
  : option (positive * Memory) :=
  if elems * elem_size <=? bytes_free m then
    let id := fresh (dom (heap m)) in
    Some (id, {| heap := <[id := replicate (Z.to_nat elems) None]> (heap m);
                 bytes_free := bytes_free m - elems * elem_size |})
  else None.

(** The elements a tensor shows, read through memory. *)
Definition tensor_data (m : Memory) (t : Tensor) : option (list cell) :=
  match buf t with
  | None => Some []
  | Some (root, offset, count) =>
      b ← heap m !! root;
      Some (take (Z.to_nat count) (drop (Z.to_nat offset) b))
  end.

(** Memory [m'] still holds every buffer of [m], unchanged. *)
Definition extends (m m' : Memory) : Prop :=
  ∀ (id : positive) (cells : list cell),
    heap m !! id = Some cells → heap m' !! id = Some cells.

(** The rows from [start] up to, not including, [limit] of a tensor along its first dimension, as
    [Tensor::Slice] computes them.  The four [CHECK]s of [Slice] (at least
    one dimension, [0 <= start <= limit <= dim_size(0)]) abort the process
    when they fail: [None].  The whole range gives the tensor itself,
    anything else a sub-window on the same buffer. *)
Definition Slice (t : Tensor) (start limit : Z) : option Tensor :=
  match shape t with
  | [] => None
  | dim0_size :: inner =>
      if (0 <=? start) && (start <=? limit) && (limit <=? dim0_size) then
        if (start =? 0) && (limit =? dim0_size) then Some t
        else if 0 <? dim0_size then
          let elems_per_dim0 := num_elements (shape t) / dim0_size in
          let delta := start * elems_per_dim0 in
          let num_elems := (limit - start) * elems_per_dim0 in
          Some {| dtype := dtype t;
                  shape := (limit - start) :: inner;
                  buf := '(root, offset, _) ← buf t;
                         Some (root, offset + delta, num_elems) |}
        else Some {| dtype := dtype t; shape := shape t; buf := None |}
      else None
  end.

(** ** TensorFlow: node attributes *)

(** The value of a node attribute: the [oneof] of [AttrValue], cut down to the
    scalar kinds. *)
Inductive AttrValue : Type :=
  | attr_i (i : Z)
  | attr_f (f : float32)
  | attr_b (b : bool)
  | attr_s (s : string).

(** [OpKernelConstruction::GetAttr] into an [int] field: the attribute must be
    there, hold an integer, and that integer must fit an [int]. *)
Definition GetAttr_int (attrs : gmap string AttrValue) (name : string) : Status + Z :=
  match attrs !! name with
  | None => inl (errors.NotFound ("No attr named " +:+ name))
  | Some (attr_i i) =>
      if is_int32 i then inr i
      else inl (errors.InvalidArgument ("Attr " +:+ name +:+ " out of range for an int32"))
  | Some _ => inl (errors.InvalidArgument ("Attr " +:+ name +:+ " is not an int"))
  end.

(** [OpKernelConstruction::GetAttr] into a [float] field. *)
Definition GetAttr_float (attrs : gmap string AttrValue) (name : string) : Status + float32 :=
  match attrs !! name with
  | None => inl (errors.NotFound ("No attr named " +:+ name))
  | Some (attr_f f) => inr f
  | Some _ => inl (errors.InvalidArgument ("Attr " +:+ name +:+ " is not a float"))
  end.

(** ** TensorFlow: the kernel context *)

(** What [Compute] reads and writes of its [OpKernelContext]: the status of
    the operation and the output slots. *)
Record OpKernelContext : Type := mkContext {
  status : Status;
  outputs : gmap nat Tensor
}.

(** The context the executor hands to [Compute]: no error, no output set. *)
Definition new_OpKernelContext : OpKernelContext :=
  {| status := Status_OK; outputs := ∅ |}.

(** ** The kernel object *)

(** The private members of [SpiralWaveformOp] (lines 75 to 83). *)
Record SpiralWaveformOp : Type := mkOp {
  base_resolution_ : Z;
  spiral_arms_ : Z;
  field_of_view_ : float32;
  max_grad_ampl_ : float32;
  min_rise_time_ : float32;
  dwell_time_ : float32;
  readout_os_ : float32;
  gradient_delay_ : float32;
  larmor_const_ : float32
}.

(** [OP_REQUIRES_OK] in the constructor: the first [GetAttr] that fails ends
    construction with its status. *)
Definition require {A B : Type} (r : Status + A) (k : A → Status + B) : Status + B :=
  match r with
  | inl s => inl s
  | inr a => k a
  end.

(** The constructor (lines 27 to 39): nine [GetAttr] calls, nothing else. *)
Definition SpiralWaveformOp_new (attrs : gmap string AttrValue) : Status + SpiralWaveformOp :=
  require (GetAttr_int attrs "base_resolution") (λ base_resolution,
  require (GetAttr_int attrs "spiral_arms") (λ spiral_arms,
  require (GetAttr_float attrs "field_of_view") (λ field_of_view,
  require (GetAttr_float attrs "max_grad_ampl") (λ max_grad_ampl,
  require (GetAttr_float attrs "min_rise_time") (λ min_rise_time,
  require (GetAttr_float attrs "dwell_time") (λ dwell_time,
  require (GetAttr_float attrs "readout_os") (λ readout_os,
  require (GetAttr_float attrs "gradient_delay") (λ gradient_delay,
  require (GetAttr_float attrs "larmor_const") (λ larmor_const,
  inr {| base_resolution_ := base_resolution;
         spiral_arms_ := spiral_arms;
         field_of_view_ := field_of_view;
         max_grad_ampl_ := max_grad_ampl;
         min_rise_time_ := min_rise_time;
         dwell_time_ := dwell_time;
         readout_os_ := readout_os;
         gradient_delay_ := gradient_delay;
         larmor_const_ := larmor_const |}))))))))).

(** ** The generator, seen from the kernel *)

(** The nine scalar arguments of a call, in the order of the call (lines 54
    to 62): two [long]s, then seven [double]s. *)
Record TrajectoryArgs : Type := mkArgs {
  arg_base_resolution : Z;
  arg_spiral_arms : Z;
  arg_field_of_view : double;
  arg_max_grad_ampl : double;
  arg_min_rise_time : double;
  arg_dwell_time : double;
  arg_readout_os : double;
  arg_gradient_delay : double;
  arg_larmor_const : double
}.

(** What a call leaves behind: the [int] it returns, the value of
    [*waveform_length] afterwards ([0], the initial value, if the generator
    never assigns it), and the floats it stored through the waveform pointer,
    from [waveform[0]] on. *)
Record Generated : Type := mkGenerated {
  gen_result : Z;
  gen_waveform_length : Z;
  gen_waveform : list float32
}.

(** The signature of [calculate_spiral_trajectory] without its two pointers. *)
Definition Generator : Type :=
  Z → Z → double → double → double → double → double → double → double → Generated.

Definition apply_generator (g : Generator) (a : TrajectoryArgs) : Generated :=
  g (arg_base_resolution a) (arg_spiral_arms a) (arg_field_of_view a)
    (arg_max_grad_ampl a) (arg_min_rise_time a) (arg_dwell_time a)
    (arg_readout_os a) (arg_gradient_delay a) (arg_larmor_const a).

(** The argument list [Compute] builds from the members: the casts of lines
    54 to 62 and nothing more. *)
Definition call_args (op : SpiralWaveformOp) : TrajectoryArgs :=
  {| arg_base_resolution := long_of_int (base_resolution_ op);
     arg_spiral_arms := long_of_int (spiral_arms_ op);
     arg_field_of_view := float_to_double (field_of_view_ op);
     arg_max_grad_ampl := float_to_double (max_grad_ampl_ op);
     arg_min_rise_time := float_to_double (min_rise_time_ op);
     arg_dwell_time := float_to_double (dwell_time_ op);
     arg_readout_os := float_to_double (readout_os_ op);
     arg_gradient_delay := float_to_double (gradient_delay_ op);
     arg_larmor_const := float_to_double (larmor_const_ op) |}.

(** The seven [float] members and the argument each of them is passed as. *)
Definition float_arguments
  : list ((SpiralWaveformOp → float32) * (TrajectoryArgs → double)) :=
  [ (field_of_view_, arg_field_of_view);
    (max_grad_ampl_, arg_max_grad_ampl);
    (min_rise_time_, arg_min_rise_time);
    (dwell_time_, arg_dwell_time);
    (readout_os_, arg_readout_os);
    (gradient_delay_, arg_gradient_delay);
    (larmor_const_, arg_larmor_const) ].

(** ** Running a kernel: state, early return, abort *)

(** The calls [Compute] makes that leave the kernel, in the order made. *)
Inductive Event : Type :=
  | ev_allocate_temp (type : DataType) (shape : TensorShape) (result : Status)
  | ev_generate (a : TrajectoryArgs)
  | ev_set_output (index : nat) (t : Tensor).

(** Everything a run of [Compute] can touch: the kernel object itself
    ([this]), the context, the allocator's memory, and the record of outside
    calls. *)
Record World : Type := mkWorld {
  this : SpiralWaveformOp;
  ctx : OpKernelContext;
  memory : Memory;
  trace : list Event
}.

(** How a piece of [Compute] ends: it runs on ([Normal]), it executes the
    [return;] inside an [OP_REQUIRES] macro ([Returned]), or the process
    stops at a failed [CHECK] or at a store outside a buffer ([Fatal]). *)
Inductive Result (A : Type) : Type :=
  | Normal (a : A) (w : World)
  | Returned (w : World)
  | Fatal (w : World).

Arguments Normal {A} a w.
Arguments Returned {A} w.
Arguments Fatal {A} w.

Definition M (A : Type) : Type := World → Result A.

#[global] Instance M_ret : MRet M := λ A a w, Normal a w.

#[global] Instance M_bind : MBind M := λ A B k m w,
  match m w with
  | Normal a w' => k a w'
  | Returned w' => Returned w'
  | Fatal w' => Fatal w'
  end.

(** The world a result ends in. *)
Definition world_of {A : Type} (r : Result A) : World :=
  match r with
  | Normal _ w | Returned w | Fatal w => w
  end.

(** [Compute] came back to the executor (it may have set an error). *)
Definition returns {A : Type} (r : Result A) : bool :=
  match r with
  | Normal _ _ | Returned _ => true
  | Fatal _ => false
  end.

(** [Compute] came back and the context holds no error. *)
Definition succeeds {A : Type} (r : Result A) : bool :=
  returns r && ok (status (ctx (world_of r))).

(** [Compute] came back and the context holds an error: the operation failed. *)
Definition fails {A : Type} (r : Result A) : bool :=
  returns r && negb (ok (status (ctx (world_of r)))).

(** Updates of one part of the world. *)
Definition with_status (s : Status) (w : World) : World :=
  {| this := this w;
     ctx := {| status := s; outputs := outputs (ctx w) |};
     memory := memory w; trace := trace w |}.

Definition with_output (index : nat) (t : Tensor) (w : World) : World :=
  {| this := this w;
     ctx := {| status := status (ctx w); outputs := <[index := t]> (outputs (ctx w)) |};
     memory := memory w; trace := trace w |}.

Definition with_memory (m : Memory) (w : World) : World :=
  {| this := this w; ctx := ctx w; memory := m; trace := trace w |}.

Definition with_event (e : Event) (w : World) : World :=
  {| this := this w; ctx := ctx w; memory := memory w; trace := trace w ++ [e] |}.

Definition get_this : M SpiralWaveformOp := λ w, Normal (this w) w.

Definition log (e : Event) : M unit := λ w, Normal tt (with_event e w).

Definition return_ {A : Type} : M A := λ w, Returned w.

Definition abort {A : Type} : M A := λ w, Fatal w.

(** [OpKernelContext::CtxFailure]: [SetStatus], which is [Status::Update]. *)
Definition CtxFailure (s : Status) : M unit := λ w,
  Normal tt (with_status (Update (status (ctx w)) s) w).

(** [OP_REQUIRES_OK(ctx, s)]: on an error status, record it and return. *)
Definition OP_REQUIRES_OK (s : Status) : M unit :=
  if ok s then mret tt else CtxFailure s ;; return_.

(** [OP_REQUIRES(ctx, cond, s)]: when [cond] is false, record [s] and return. *)
Definition OP_REQUIRES (cond : bool) (s : Status) : M unit :=
  if cond then mret tt else CtxFailure s ;; return_.

(** [OpKernelContext::allocate_temp(type, shape, &out)]: a tensor on a new
    buffer, or [ResourceExhausted] with [out] left as it was when the
    allocator has nothing to give.  A shape without elements needs no
    buffer. *)
Definition allocate_temp (type : DataType) (shape : TensorShape) (out : Tensor)
  : M (Status * Tensor) := λ w,
  let n := num_elements shape in
  let '(st, t, m) :=
    if n <=? 0 then
      (Status_OK, {| dtype := type; shape := shape; buf := None |}, memory w)
    else
      match AllocateRaw n (DataTypeSize type) (memory w) with
      | Some (id, m') =>
          (Status_OK, {| dtype := type; shape := shape; buf := Some (id, 0, n) |}, m')
      | None =>
          (errors.ResourceExhausted "OOM when allocating tensor", out, memory w)
      end in
  Normal (st, t) (with_event (ev_allocate_temp type shape st) (with_memory m w)).

(** [OpKernelContext::set_output(index, tensor)]. *)
Definition set_output (index : nat) (t : Tensor) : M unit := λ w,
  Normal tt (with_event (ev_set_output index t) (with_output index t w)).

(** A value whose computation passes its [CHECK]s, or the abort. *)
Definition checked {A : Type} (o : option A) : M A :=
  match o with
  | Some a => mret a
  | None => abort
  end.

(** Storing [fs] into a buffer from element [offset] on. *)
Definition write_floats (b : list cell) (offset : nat) (fs : list float32) : list cell :=
  take offset b ++ (Some <$> fs) ++ drop (offset + length fs) b.

(** The stores of a generator call through [(float* ) t.data()]: inside the
    window of [t] they change the buffer; a store past its end is outside the
    program's defined behaviour and stops the run. *)
Definition store_waveform (t : Tensor) (fs : list float32) : M unit := λ w,
  match buf t with
  | None => if decide (fs = []) then Normal tt w else Fatal w
  | Some (root, offset, count) =>
      match heap (memory w) !! root with
      | Some b =>
          if (0 <=? offset) && (Z.of_nat (length fs) <=? count) then
            Normal tt
              (with_memory
                 {| heap := <[root := write_floats b (Z.to_nat offset) fs]> (heap (memory w));
                    bytes_free := bytes_free (memory w) |} w)
          else Fatal w
      | None => Fatal w
      end
  end.

(** ** The parameters the spec calls valid *)

Definition float_one : float32 := S754_finite false 8388608 (-23).

Definition positive_float (x : float32) : bool :=
  match x with
  | S754_finite false _ _ => true
  | _ => false
  end.

Definition finite_float (x : float32) : bool :=
  match x with
  | S754_finite _ _ _ | S754_zero _ => true
  | _ => false
  end.

(** Modelled from the spec: the input constraints of the generator (section
    4.1), which no source file states: every numeric parameter positive,
    [gradient_delay] any (finite) real, [readout_os] at least 1. *)
Definition valid_parameters (op : SpiralWaveformOp) : bool :=
  (0 <? base_resolution_ op) && (0 <? spiral_arms_ op)
  && positive_float (field_of_view_ op)
  && positive_float (max_grad_ampl_ op)
  && positive_float (min_rise_time_ op)
  && positive_float (dwell_time_ op)
  && SFleb float_one (readout_os_ op)
  && finite_float (gradient_delay_ op)
  && positive_float (larmor_const_ op).

(** ** A small instance to run the kernel on *)

(** The float [1 + k * 2^-23]. *)
Definition sample (k : nat) : float32 :=
  S754_finite false (Pos.of_nat (Nat.pow 2 23 + k)) (-23).

(** A stand-in for the generator with capacity [cap]: it rejects a
    non-positive resolution, reports as many rows as there are arms and
    stores two floats for each of them, up to the capacity. *)
Definition ramp_generator (cap : positive) : Generator :=
  λ base_resolution spiral_arms _ _ _ _ _ _ _,
  {| gen_result := if 0 <? base_resolution then 0 else 1;
     gen_waveform_length := spiral_arms;
     gen_waveform := sample <$> seq 0 (2 * Z.to_nat (Z.min spiral_arms (Z.pos cap))) |}.

(** A kernel whose float attributes are all [1.0], with a delay of [0.0]. *)
Definition unit_op (base_resolution spiral_arms : Z) : SpiralWaveformOp :=
  {| base_resolution_ := base_resolution;
     spiral_arms_ := spiral_arms;
     field_of_view_ := float_one;
     max_grad_ampl_ := float_one;
     min_rise_time_ := float_one;
     dwell_time_ := float_one;
     readout_os_ := float_one;
     gradient_delay_ := S754_zero false;
     larmor_const_ := float_one |}.

(** An allocator with nothing handed out yet and [n] bytes to give. *)
Definition empty_memory (n : Z) : Memory := {| heap := ∅; bytes_free := n |}.

(** An allocator that has already handed out two buffers. *)
Definition used_memory (n : Z) : Memory :=
  {| heap := <[1%positive := [Some float_one]]> (<[2%positive := [None; None]]> ∅);
     bytes_free := n |}.

(** Node attributes none of which the spec would call valid: a negative
    resolution, no arms, [-1.0] for every float but an oversampling of
    [0.0]. *)
Definition float_minus_one : float32 := S754_finite true 8388608 (-23).

Definition nonpositive_attrs : gmap string AttrValue :=
  <["base_resolution" := attr_i (-5)]> (
  <["spiral_arms" := attr_i 0]> (
  <["field_of_view" := attr_f float_minus_one]> (
  <["max_grad_ampl" := attr_f float_minus_one]> (
  <["min_rise_time" := attr_f float_minus_one]> (
  <["dwell_time" := attr_f float_minus_one]> (
  <["readout_os" := attr_f (S754_zero false)]> (
  <["gradient_delay" := attr_f float_minus_one]> (
  <["larmor_const" := attr_f float_minus_one]> ∅)))))))).

(** ** The attributes the constructor reads *)

Inductive AttrKind : Set := kind_int | kind_float.

(** The nine reads of lines 29 to 37, in the order of the source. *)
Definition attribute_reads : list (string * AttrKind) :=
  [ ("base_resolution", kind_int);
    ("spiral_arms", kind_int);
    ("field_of_view", kind_float);
    ("max_grad_ampl", kind_float);
    ("min_rise_time", kind_float);
    ("dwell_time", kind_float);
    ("readout_os", kind_float);
    ("gradient_delay", kind_float);
    ("larmor_const", kind_float) ].

(** The error of one read, if it has one. *)
Definition read_error (attrs : gmap string AttrValue) (r : string * AttrKind)
  : option Status :=
  match r.2 with
  | kind_int =>
      match GetAttr_int attrs r.1 with inl s => Some s | inr _ => None end
  | kind_float =>
      match GetAttr_float attrs r.1 with inl s => Some s | inr _ => None end
  end.

(** The error of the first read that has one. *)
Definition first_error (attrs : gmap string AttrValue) : option Status :=
  head (omap (read_error attrs) attribute_reads).

(** The node attributes a kernel was built from. *)
Definition attrs_of (op : SpiralWaveformOp) : gmap string AttrValue :=
  <["base_resolution" := attr_i (base_resolution_ op)]> (
  <["spiral_arms" := attr_i (spiral_arms_ op)]> (
  <["field_of_view" := attr_f (field_of_view_ op)]> (
  <["max_grad_ampl" := attr_f (max_grad_ampl_ op)]> (
  <["min_rise_time" := attr_f (min_rise_time_ op)]> (
  <["dwell_time" := attr_f (dwell_time_ op)]> (
  <["readout_os" := attr_f (readout_os_ op)]> (
  <["gradient_delay" := attr_f (gradient_delay_ op)]> (
  <["larmor_const" := attr_f (larmor_const_ op)]> ∅)))))))).

(** Every [float] member is a binary32 number. *)
Definition float_members_valid (op : SpiralWaveformOp) : bool :=
  forallb (λ member : SpiralWaveformOp → float32, is_float32 (member op))
    float_arguments.*1.

(** A binary32 number: not a NaN. *)
Definition is_number (x : float32) : bool :=
  is_float32 x && match x with S754_nan => false | _ => true end.

(** Every [float] member is a number. *)
Definition float_members_are_numbers (op : SpiralWaveformOp) : bool :=
  forallb (λ member : SpiralWaveformOp → float32, is_number (member op))
    float_arguments.*1.

(** A generator that reports three rows and stores one of them. *)
Definition short_generator : Generator :=
  λ _ _ _ _ _ _ _ _ _,
  {| gen_result := 0;
     gen_waveform_length := 3;
     gen_waveform := [float_one; float_minus_one] |}.
(** ** [SpiralWaveformOp::Compute] *)

Section Kernel.

(** [SWF_MAX_WAVEFORM_SIZE] of the missing header, the capacity shared between
    caller and generator: a number of rows, at least one. *)
Variable SWF_MAX_WAVEFORM_SIZE : positive.

(** The generator of the spiral_waveform library, any function of its nine
    scalar arguments. *)
Variable calculate_spiral_trajectory : Generator.

(** The call of lines 52 to 62: the generator runs on [a], stores its floats
    through the data pointer of [waveform], and hands back its return value
    and the length it reported. *)
Definition call_generator (waveform : Tensor) (a : TrajectoryArgs) : M (Z * Z) :=
  log (ev_generate a) ;;
  let g := apply_generator calculate_spiral_trajectory a in
  store_waveform waveform (gen_waveform g) ;;
  mret (gen_result g, gen_waveform_length g).

(** Lines 41 to 71. *)
Definition Compute : M unit :=
  (* Create a buffer tensor. *)
  let temp_waveform_shape : TensorShape := [Z.pos SWF_MAX_WAVEFORM_SIZE; 2] in
  '(s, temp_waveform) ← allocate_temp DT_FLOAT temp_waveform_shape Tensor_default;
  OP_REQUIRES_OK s ;;
  (* Calculate the spiral waveform. *)
  op ← get_this;
  '(result, waveform_length) ← call_generator temp_waveform (call_args op);
  OP_REQUIRES (result =? 0)
    (errors.Internal "failed during `calculate_spiral_trajectory`") ;;
  waveform ← checked (Slice temp_waveform 0 waveform_length);
  set_output 0 waveform.

(** One invocation by the executor: [Compute] on a new context. *)
Definition start (op : SpiralWaveformOp) (m : Memory) : World :=
  {| this := op; ctx := new_OpKernelContext; memory := m; trace := [] |}.

Definition invoke (op : SpiralWaveformOp) (m : Memory) : Result unit :=
  Compute (start op m).

(** *** Vocabulary of the theorems *)

(** The temporary tensor of lines 44 to 48, as [allocate_temp] returns it in
    memory [m]. *)
Definition temp_elems : Z := num_elements [Z.pos SWF_MAX_WAVEFORM_SIZE; 2].

Definition temp_id (m : Memory) : positive := fresh (dom (heap m)).

Definition temp_tensor (m : Memory) : Tensor :=
  {| dtype := DT_FLOAT;
     shape := [Z.pos SWF_MAX_WAVEFORM_SIZE; 2];
     buf := Some (temp_id m, 0, temp_elems) |}.

(** The allocator can serve the temporary tensor. *)
Definition allocates (m : Memory) : bool :=
  temp_elems * DataTypeSize DT_FLOAT <=? bytes_free m.

(** What the generator does when called for the kernel [op]. *)
Definition generated (op : SpiralWaveformOp) : Generated :=
  apply_generator calculate_spiral_trajectory (call_args op).

(** The generator's stores stay inside the temporary tensor. *)
Definition in_buffer (g : Generated) : bool :=
  Z.of_nat (length (gen_waveform g)) <=? temp_elems.

(** The reported length is a number of rows of the temporary tensor. *)
Definition length_in_range (g : Generated) : bool :=
  (0 <=? gen_waveform_length g) && (gen_waveform_length g <=? Z.pos SWF_MAX_WAVEFORM_SIZE).

(** A generator that returns 0 has stored every float of the rows it
    reports: two for each row. *)
Definition stores_reported_rows (g : Generated) : bool :=
  negb (gen_result g =? 0)
  || (gen_waveform_length g * 2 <=? Z.of_nat (length (gen_waveform g))).

(** The temporary buffer once the generator has stored [fs]. *)
Definition filled (fs : list float32) : list cell :=
  write_floats (replicate (Z.to_nat temp_elems) None) 0 fs.

(** Memory once the temporary buffer holds [cells]. *)
Definition with_temp (m : Memory) (cells : list cell) : Memory :=
  {| heap := <[temp_id m := cells]> (heap m);
     bytes_free := bytes_free m - temp_elems * DataTypeSize DT_FLOAT |}.

(** Modelled from the spec: the promise of the generator, whose code is not
    among the sources, that a waveform it produces for valid parameters is not
    empty (section 3, "waveform length > 0"). *)
Definition reports_samples : Prop :=
  ∀ op : SpiralWaveformOp,
    valid_parameters op = true →
    gen_result (generated op) = 0 →
    1 <= gen_waveform_length (generated op).

(** The world right after the call of the generator, before its stores. *)
Definition called (w : World) : World :=
  with_event (ev_generate (call_args (this w)))
    (with_event (ev_allocate_temp DT_FLOAT [Z.pos SWF_MAX_WAVEFORM_SIZE; 2] Status_OK)
       (with_memory (with_temp (memory w) (replicate (Z.to_nat temp_elems) None)) w)).

(** The world once the generator has stored its floats. *)
Definition generated_world (w : World) : World :=
  with_memory (with_temp (memory w) (filled (gen_waveform (generated (this w)))))
    (called w).

(** The first [len] rows of the temporary tensor. *)
Definition output_tensor (m : Memory) (len : Z) : Tensor :=
  {| dtype := DT_FLOAT; shape := [len; 2]; buf := Some (temp_id m, 0, len * 2) |}.

(** The world in which output 0 is set. *)
Definition published (w : World) : World :=
  let waveform := output_tensor (memory w) (gen_waveform_length (generated (this w))) in
  with_event (ev_set_output 0 waveform) (with_output 0 waveform (generated_world w)).

(** What a caller can see of a run: whether [Compute] came back, the status,
    and type, shape and elements of output 0 if it is set. *)
Definition observation (r : Result unit)
  : bool * Status * option (DataType * TensorShape * option (list cell)) :=
  (returns r,
   status (ctx (world_of r)),
   (λ t, (dtype t, shape t, tensor_data (memory (world_of r)) t))
     <$> outputs (ctx (world_of r)) !! 0%nat).

(** The arguments of the generator calls among the events [t]. *)
Definition generator_calls (t : list Event) : list TrajectoryArgs :=
  omap (λ e, match e with ev_generate a => Some a | _ => None end) t.


(** ** Facts about the scalars *)

(** Shifting a significand left by [d] bits. *)
Lemma digits2_pos_iter_xO (d m : positive) :
  digits2_pos (Pos.iter xO m d) = (digits2_pos m + d)%positive.
Proof.
  induction d as [|d IH] using Pos.peano_ind.
  - cbn. lia.
  - rewrite Pos.iter_succ. cbn [digits2_pos]. rewrite IH. lia.
Qed.

Lemma Zpos_iter_xO (d m : positive) :
  Z.pos (Pos.iter xO m d) = Z.pos m * 2 ^ Z.pos d.
Proof.
  induction d as [|d IH] using Pos.peano_ind.
  - cbn. lia.
  - rewrite Pos.iter_succ, Pos2Z.inj_xO, IH, Pos2Z.inj_succ, Z.pow_succ_r by lia. lia.
Qed.

(** A canonical binary32 significand has at most 24 bits, and its exponent is
    at least -149 and at most 104. *)
Lemma is_float32_finite (s : bool) (m : positive) (e : Z) :
  is_float32 (S754_finite s m e) = true →
  Z.pos (digits2_pos m) <= 24 ∧ -149 <= e <= 104.
Proof.
  unfold is_float32, valid_binary, bounded, canonical_mantissa, fexp, emin.
  intros H. apply andb_true_iff in H as [Hc He].
  apply Z.eqb_eq in Hc. apply Z.leb_le in He. lia.
Qed.

Lemma float_to_double_finite (s : bool) (m : positive) (e : Z) :
  is_float32 (S754_finite s m e) = true →
  float_to_double (S754_finite s m e) =
    S754_finite s (Pos.iter xO m (Z.to_pos (53 - Z.pos (digits2_pos m))))
                (e - (53 - Z.pos (digits2_pos m))).
Proof.
  intros Hv. apply is_float32_finite in Hv as [Hd He].
  unfold float_to_double, binary_round, shl_align, fexp, emin.
  rewrite Z.max_l by lia.
  remember (Z.to_pos (53 - Z.pos (digits2_pos m))) as k eqn:Hk.
  assert (Hkz : Z.pos k = 53 - Z.pos (digits2_pos m)) by (subst k; rewrite Z2Pos.id; lia).
  replace (Z.pos (digits2_pos m) + e - 53 - e) with (Z.neg k) by lia.
  unfold binary_round_aux, shr_fexp, fexp, emin, Zdigits2.
  rewrite digits2_pos_iter_xO.
  replace (Z.max (Z.pos (digits2_pos m + k) + (Z.pos (digits2_pos m) + e - 53) - 53) (3 - 1024 - 53)
           - (Z.pos (digits2_pos m) + e - 53)) with 0 by lia.
  cbn [shr shr_record_of_loc loc_of_shr_record round_nearest_even shr_m].
  rewrite digits2_pos_iter_xO.
  replace (Z.max (Z.pos (digits2_pos m + k) + (Z.pos (digits2_pos m) + e - 53) - 53) (3 - 1024 - 53)
           - (Z.pos (digits2_pos m) + e - 53)) with 0 by lia.
  cbn [shr shr_record_of_loc loc_of_shr_record round_nearest_even shr_m].
  replace (Z.pos (digits2_pos m) + e - 53 <=? 1024 - 53) with true by (symmetry; apply Z.leb_le; lia).
  f_equal. lia.
Qed.

Lemma float_to_double_exact (x : float32) :
  is_float32 x = true →
  is_double (float_to_double x) = true ∧ same_value x (float_to_double x).
Proof.
  destruct x as [s|s| |s m e]; intros Hv; try (split; reflexivity).
  rewrite (float_to_double_finite s m e Hv).
  apply is_float32_finite in Hv as [Hd He].
  remember (Z.to_pos (53 - Z.pos (digits2_pos m))) as k eqn:Hk.
  assert (Hkz : Z.pos k = 53 - Z.pos (digits2_pos m)) by (subst k; rewrite Z2Pos.id; lia).
  rewrite <- Hkz. split.
  - unfold is_double, valid_binary, bounded, canonical_mantissa, fexp, emin.
    rewrite digits2_pos_iter_xO. apply andb_true_iff. split.
    + apply Z.eqb_eq. lia.
    + apply Z.leb_le. lia.
  - unfold same_value. split; [reflexivity|].
    rewrite Z.min_r by lia. rewrite Zpos_iter_xO, Z.sub_diag.
    replace (e - (e - Z.pos k)) with (Z.pos k) by lia. lia.
Qed.

Lemma float_to_double_inj (x y : float32) :
  is_float32 x = true → is_float32 y = true →
  float_to_double x = float_to_double y → x = y.
Proof.
  intros Hx Hy.
  destruct x as [sx|sx| |sx mx ex]; destruct y as [sy|sy| |sy my ey];
    try rewrite (float_to_double_finite _ _ _ Hx);
    try rewrite (float_to_double_finite _ _ _ Hy);
    cbn [float_to_double]; try discriminate; try (intros; assumption).
  intros [= Hs Hm He]. subst sy.
  pose proof Hx as Hcx. pose proof Hy as Hcy.
  apply is_float32_finite in Hx as [Hdx Hex].
  apply is_float32_finite in Hy as [Hdy Hey].
  unfold is_float32, valid_binary, bounded, canonical_mantissa, fexp, emin in Hcx, Hcy.
  apply andb_true_iff in Hcx as [Hcx _]. apply andb_true_iff in Hcy as [Hcy _].
  apply Z.eqb_eq in Hcx. apply Z.eqb_eq in Hcy.
  assert (ex = ey) by lia. subst ey.
  assert (Hd : Z.pos (digits2_pos mx) = Z.pos (digits2_pos my)) by lia.
  rewrite Hd in Hm.
  apply (f_equal Z.pos) in Hm. rewrite !Zpos_iter_xO in Hm.
  apply Z.mul_cancel_r in Hm; [|apply Z.pow_nonzero; lia].
  congruence.
Qed.

(** The conversions of the call keep every value: the integers as they are,
    each binary32 member as the binary64 number of the same value. *)
Lemma call_args_keep_values (op : SpiralWaveformOp) :
  arg_base_resolution (call_args op) = base_resolution_ op
  ∧ arg_spiral_arms (call_args op) = spiral_arms_ op
  ∧ ∀ (member : SpiralWaveformOp → float32) (arg : TrajectoryArgs → double),
      (member, arg) ∈ float_arguments →
      arg (call_args op) = float_to_double (member op)
      ∧ (is_float32 (member op) = true →
           is_double (arg (call_args op)) = true
           ∧ same_value (member op) (arg (call_args op))).
Proof.
  split; [reflexivity|]. split; [reflexivity|].
  intros member arg Hin. unfold float_arguments in Hin.
  repeat (apply elem_of_cons in Hin; destruct Hin as [[= -> ->]|Hin];
          [split; [reflexivity|apply float_to_double_exact]|]).
  apply elem_of_nil in Hin. contradiction.
Qed.

(** ** Facts about the pieces *)

Lemma temp_elems_eq : temp_elems = Z.pos SWF_MAX_WAVEFORM_SIZE * 2.
Proof. unfold temp_elems, num_elements. simpl foldr. lia. Qed.

Lemma temp_elems_pos : 0 < temp_elems.
Proof. rewrite temp_elems_eq. lia. Qed.

(** The slice [Compute] takes: the rows [0 .. len) of the temporary tensor.
    It exists exactly for a length between 0 and the capacity, and is then a
    float tensor of [len] rows of 2 on the first [len * 2] elements of the
    same buffer. *)
Lemma Slice_temp_tensor (m : Memory) (len : Z) :
  Slice (temp_tensor m) 0 len =
    if (0 <=? len) && (len <=? Z.pos SWF_MAX_WAVEFORM_SIZE) then
      Some (output_tensor m len)
    else None.
Proof.
  unfold Slice, temp_tensor, output_tensor. cbn [shape dtype buf].
  change (0 <=? 0) with true. cbn [andb].
  destruct (0 <=? len) eqn:H0; cbn [andb]; [|reflexivity].
  destruct (len <=? Z.pos SWF_MAX_WAVEFORM_SIZE) eqn:H1; [|reflexivity].
  change (0 =? 0) with true. cbn [andb].
  destruct (len =? Z.pos SWF_MAX_WAVEFORM_SIZE) eqn:H2.
  - apply Z.eqb_eq in H2. subst len. rewrite temp_elems_eq. reflexivity.
  - change (0 <? Z.pos SWF_MAX_WAVEFORM_SIZE) with true. cbv iota.
    fold temp_elems. rewrite temp_elems_eq.
    cbv beta iota delta [mbind option_bind].
    rewrite (Z.mul_comm (Z.pos SWF_MAX_WAVEFORM_SIZE) 2), Z.div_mul by lia.
    repeat f_equal; lia.
Qed.

(** ** The five ways a run of [Compute] can go *)

Lemma AllocateRaw_temp (m : Memory) :
  AllocateRaw temp_elems (DataTypeSize DT_FLOAT) m =
    if allocates m then
      Some (temp_id m, with_temp m (replicate (Z.to_nat temp_elems) None))
    else None.
Proof. reflexivity. Qed.

Lemma temp_elems_not_le_0 : (temp_elems <=? 0) = false.
Proof. pose proof temp_elems_pos. lia. Qed.

(** [allocate_temp] as [Compute] calls it. *)
Lemma allocate_temp_temp (w : World) :
  allocate_temp DT_FLOAT [Z.pos SWF_MAX_WAVEFORM_SIZE; 2] Tensor_default w =
    if allocates (memory w) then
      Normal (Status_OK, temp_tensor (memory w))
        (with_event (ev_allocate_temp DT_FLOAT [Z.pos SWF_MAX_WAVEFORM_SIZE; 2] Status_OK)
           (with_memory (with_temp (memory w) (replicate (Z.to_nat temp_elems) None)) w))
    else
      Normal (errors.ResourceExhausted "OOM when allocating tensor", Tensor_default)
        (with_event
           (ev_allocate_temp DT_FLOAT [Z.pos SWF_MAX_WAVEFORM_SIZE; 2]
              (errors.ResourceExhausted "OOM when allocating tensor"))
           (with_memory (memory w) w)).
Proof.
  unfold allocate_temp. fold temp_elems.
  rewrite temp_elems_not_le_0, AllocateRaw_temp.
  destruct (allocates (memory w)); reflexivity.
Qed.

(** The generator's stores into the temporary tensor. *)
Lemma store_waveform_temp (w : World) (m : Memory) (cells : list cell) (fs : list float32) :
  memory w = with_temp m cells →
  store_waveform (temp_tensor m) fs w =
    if Z.of_nat (length fs) <=? temp_elems then
      Normal tt (with_memory (with_temp m (write_floats cells 0 fs)) w)
    else Fatal w.
Proof.
  intros Hm. unfold store_waveform, temp_tensor. cbn [buf].
  rewrite Hm. unfold with_temp at 1. cbn [heap].
  rewrite lookup_insert_eq. change (0 <=? 0) with true. cbn [andb].
  destruct (Z.of_nat (length fs) <=? temp_elems); [|reflexivity].
  unfold with_temp. cbn [heap bytes_free]. rewrite insert_insert_eq.
  reflexivity.
Qed.

(** ** The five ways a run of [Compute] can go *)

(** 1. The allocator has nothing to give: [ResourceExhausted], and the
    generator is never reached. *)
Lemma Compute_out_of_memory (w : World) :
  allocates (memory w) = false →
  Compute w =
    Returned
      (with_status
         (Update (status (ctx w)) (errors.ResourceExhausted "OOM when allocating tensor"))
         (with_event
            (ev_allocate_temp DT_FLOAT [Z.pos SWF_MAX_WAVEFORM_SIZE; 2]
               (errors.ResourceExhausted "OOM when allocating tensor")) w)).
Proof.
  intros Ha. unfold Compute, mbind, M_bind.
  rewrite allocate_temp_temp, Ha. destruct w; reflexivity.
Qed.

(** Once the temporary tensor is there, the run is decided by what the
    generator does. *)
Lemma Compute_allocated (w : World) :
  allocates (memory w) = true →
  Compute w =
    let g := generated (this w) in
    if in_buffer g then
      if gen_result g =? 0 then
        match Slice (temp_tensor (memory w)) 0 (gen_waveform_length g) with
        | Some waveform =>
            Normal tt (with_event (ev_set_output 0 waveform)
                         (with_output 0 waveform (generated_world w)))
        | None => Fatal (generated_world w)
        end
      else
        Returned
          (with_status
             (Update (status (ctx w))
                (errors.Internal "failed during `calculate_spiral_trajectory`"))
             (generated_world w))
    else Fatal (called w).
Proof.
  intros Ha. unfold Compute, mbind, M_bind.
  rewrite allocate_temp_temp, Ha. cbv iota beta.
  change (OP_REQUIRES_OK Status_OK) with (@mret M _ _ tt).
  unfold mret at 1, M_ret at 1, get_this at 1.
  unfold call_generator, mbind, M_bind, log.
  erewrite store_waveform_temp by reflexivity.
  cbn [this with_event with_memory].
  fold (generated (this w)). fold (in_buffer (generated (this w))).
  fold (filled (gen_waveform (generated (this w)))).
  cbv zeta.
  destruct (in_buffer (generated (this w))); [|reflexivity].
  unfold mret, M_ret. 
  destruct (gen_result (generated (this w)) =? 0); [|reflexivity].
  cbn [OP_REQUIRES mret M_ret].
  destruct (Slice (temp_tensor (memory w)) 0 (gen_waveform_length (generated (this w))));
    reflexivity.
Qed.

(** The whole of [Compute], decided by four tests. *)
Lemma Compute_unfold (w : World) :
  Compute w =
    let g := generated (this w) in
    if allocates (memory w) then
      if in_buffer g then
        if gen_result g =? 0 then
          if length_in_range g then Normal tt (published w)
          else Fatal (generated_world w)
        else
          Returned
            (with_status
               (Update (status (ctx w))
                  (errors.Internal "failed during `calculate_spiral_trajectory`"))
               (generated_world w))
      else Fatal (called w)
    else
      Returned
        (with_status
           (Update (status (ctx w)) (errors.ResourceExhausted "OOM when allocating tensor"))
           (with_event
              (ev_allocate_temp DT_FLOAT [Z.pos SWF_MAX_WAVEFORM_SIZE; 2]
                 (errors.ResourceExhausted "OOM when allocating tensor")) w)).
Proof.
  destruct (allocates (memory w)) eqn:Ha.
  - rewrite Compute_allocated by assumption. cbv zeta.
    rewrite Slice_temp_tensor. fold (length_in_range (generated (this w))).
    destruct (length_in_range (generated (this w))); reflexivity.
  - apply Compute_out_of_memory, Ha.
Qed.

(** ** The temporary buffer and the output read through memory *)

Lemma filled_eq (fs : list float32) :
  filled fs = (Some <$> fs) ++ replicate (Z.to_nat temp_elems - length fs) None.
Proof.
  unfold filled, write_floats. rewrite take_0, drop_replicate. reflexivity.
Qed.

Lemma filled_length (g : Generated) :
  in_buffer g = true →
  length (filled (gen_waveform g)) = Z.to_nat temp_elems.
Proof.
  unfold in_buffer. intros Hb. apply Z.leb_le in Hb.
  rewrite filled_eq, length_app, length_fmap, length_replicate. lia.
Qed.

(** What the generator stored is what the buffer holds, in order. *)
Lemma filled_lookup (fs : list float32) (i : nat) (x : float32) :
  fs !! i = Some x → filled fs !! i = Some (Some x).
Proof.
  intros Hi. rewrite filled_eq. rewrite lookup_app_l.
  - rewrite list_lookup_fmap, Hi. reflexivity.
  - rewrite length_fmap. eapply lookup_lt_Some, Hi.
Qed.

Lemma with_temp_lookup (m : Memory) (cells : list cell) :
  heap (with_temp m cells) !! temp_id m = Some cells.
Proof. unfold with_temp. cbn [heap]. apply lookup_insert_eq. Qed.

(** The temporary buffer is new: no buffer of [m] has its identifier. *)
Lemma temp_id_fresh (m : Memory) : heap m !! temp_id m = None.
Proof. apply not_elem_of_dom. unfold temp_id. apply is_fresh. Qed.

Lemma with_temp_lookup_other (m : Memory) (cells b : list cell) (id : positive) :
  heap m !! id = Some b → heap (with_temp m cells) !! id = Some b.
Proof.
  intros Hid. unfold with_temp. cbn [heap].
  rewrite lookup_insert_ne; [assumption|].
  intros <-. rewrite temp_id_fresh in Hid. discriminate.
Qed.

(** The output shows the first [len] rows of the temporary buffer. *)
Lemma tensor_data_output (m : Memory) (cells : list cell) (len : Z) :
  tensor_data (with_temp m cells) (output_tensor m len)
    = Some (take (Z.to_nat (len * 2)) cells).
Proof.
  unfold tensor_data, output_tensor. cbn [buf].
  rewrite with_temp_lookup. cbn. rewrite drop_0. reflexivity.
Qed.

(** ** Failure and success *)

Lemma invoke_unfold (op : SpiralWaveformOp) (m : Memory) :
  invoke op m =
    let g := generated op in
    if allocates m then
      if in_buffer g then
        if gen_result g =? 0 then
          if length_in_range g then Normal tt (published (start op m))
          else Fatal (generated_world (start op m))
        else
          Returned
            (with_status (errors.Internal "failed during `calculate_spiral_trajectory`")
               (generated_world (start op m)))
      else Fatal (called (start op m))
    else
      Returned
        (with_status (errors.ResourceExhausted "OOM when allocating tensor")
           (with_event
              (ev_allocate_temp DT_FLOAT [Z.pos SWF_MAX_WAVEFORM_SIZE; 2]
                 (errors.ResourceExhausted "OOM when allocating tensor"))
              (start op m))).
Proof. unfold invoke. rewrite Compute_unfold. reflexivity. Qed.

(** Case analysis on the four tests that decide a run. *)
Ltac by_cases op m :=
  rewrite ?invoke_unfold; cbv zeta;
  destruct (allocates m) eqn:Halloc;
  [ destruct (in_buffer (generated op)) eqn:Hbuf;
    [ destruct (Z.eqb_spec (gen_result (generated op)) 0) as [Hres|Hres];
      [ destruct (length_in_range (generated op)) eqn:Hlen | ] | ] | ].

(** C1, as amended.  The operation fails exactly when the temporary tensor
    cannot be allocated or the generator (storing inside that tensor) returns
    a nonzero value.  In the first case the error is the allocator's
    [ResourceExhausted] and the generator is not called; in the second it is
    [Internal].  When the tensor is allocated and the generator returns 0 with
    a length between 0 and the capacity, the operation succeeds and output 0
    is the waveform. *)
Theorem C1_fails_iff_no_memory_or_nonzero (op : SpiralWaveformOp) (m : Memory) :
  (fails (invoke op m) = true ↔
     allocates m = false ∨ (in_buffer (generated op) = true ∧ gen_result (generated op) ≠ 0))
  ∧ (allocates m = false →
       status (ctx (world_of (invoke op m)))
         = errors.ResourceExhausted "OOM when allocating tensor"
       ∧ generator_calls (trace (world_of (invoke op m))) = [])
  ∧ (allocates m = true → in_buffer (generated op) = true →
     gen_result (generated op) ≠ 0 →
       status (ctx (world_of (invoke op m)))
         = errors.Internal "failed during `calculate_spiral_trajectory`")
  ∧ (allocates m = true → in_buffer (generated op) = true →
     gen_result (generated op) = 0 → length_in_range (generated op) = true →
       succeeds (invoke op m) = true
       ∧ outputs (ctx (world_of (invoke op m))) !! 0%nat
           = Some (output_tensor m (gen_waveform_length (generated op)))).
Proof.
  repeat split.
  - by_cases op m; cbn; intros; try discriminate; auto.
  - by_cases op m; cbn; intros [?|[? ?]]; congruence.
  - by_cases op m; intros; try discriminate. reflexivity.
  - by_cases op m; intros; try discriminate. reflexivity.
  - by_cases op m; intros; try discriminate; try contradiction. reflexivity.
  - by_cases op m; intros; try discriminate; try contradiction. reflexivity.
  - by_cases op m; intros; try discriminate; try contradiction.
    cbn. apply lookup_insert_eq.
Qed.

(** A run that succeeds passed all four tests and published the waveform. *)
Lemma succeeds_inv (op : SpiralWaveformOp) (m : Memory) :
  succeeds (invoke op m) = true →
  allocates m = true ∧ in_buffer (generated op) = true
  ∧ gen_result (generated op) = 0 ∧ length_in_range (generated op) = true
  ∧ invoke op m = Normal tt (published (start op m)).
Proof.
  by_cases op m; intros Hs; try discriminate Hs. auto.
Qed.

Lemma length_in_range_bounds (g : Generated) :
  length_in_range g = true ↔ 0 <= gen_waveform_length g <= Z.pos SWF_MAX_WAVEFORM_SIZE.
Proof. unfold length_in_range. rewrite andb_true_iff, !Z.leb_le. tauto. Qed.

Lemma published_output (op : SpiralWaveformOp) (m : Memory) :
  outputs (ctx (published (start op m))) !! 0%nat
    = Some (output_tensor m (gen_waveform_length (generated op))).
Proof. cbn. apply lookup_insert_eq. Qed.

Lemma published_data (op : SpiralWaveformOp) (m : Memory) :
  tensor_data (memory (published (start op m)))
      (output_tensor m (gen_waveform_length (generated op)))
    = Some (take (Z.to_nat (gen_waveform_length (generated op) * 2))
              (filled (gen_waveform (generated op)))).
Proof. cbn [published memory with_event with_output generated_world with_memory start this].
  apply tensor_data_output. Qed.

(** ** The length of the waveform *)

(** C2.  If the generator keeps the spec's promise that the waveform it
    produces for valid parameters is not empty, then on every successful run
    with valid parameters output 0 has [L] rows with
    [1 <= L <= SWF_MAX_WAVEFORM_SIZE], [L] being the length the generator
    reported.  The upper bound is not assumed: a run with a longer length does
    not succeed. *)
Theorem C2_length_between_one_and_capacity
    (Hgen : reports_samples) (op : SpiralWaveformOp) (m : Memory) :
  valid_parameters op = true →
  succeeds (invoke op m) = true →
  ∃ (t : Tensor) (L : Z),
    outputs (ctx (world_of (invoke op m))) !! 0%nat = Some t
    ∧ shape t = [L; 2]
    ∧ L = gen_waveform_length (generated op)
    ∧ 1 <= L <= Z.pos SWF_MAX_WAVEFORM_SIZE.
Proof.
  intros Hvalid Hs.
  destruct (succeeds_inv op m Hs) as (_ & _ & Hres & Hlen & Hrun).
  apply length_in_range_bounds in Hlen.
  specialize (Hgen op Hvalid Hres).
  rewrite Hrun. cbn [world_of].
  exists (output_tensor m (gen_waveform_length (generated op))),
         (gen_waveform_length (generated op)).
  split; [apply published_output|].
  split; [reflexivity|]. split; [reflexivity|]. lia.
Qed.

(** ** Nothing is published on failure *)

Lemma Update_not_ok (old new : Status) : ok new = false → ok (Update old new) = false.
Proof. unfold Update. destruct (ok old) eqn:Ho; intros; assumption. Qed.

Ltac no_set_output H :=
  repeat (apply elem_of_cons in H; destruct H as [H|H]; [discriminate H|]);
  apply elem_of_nil in H; exact H.

(** C3.  When the generator returns a nonzero value, the run does not
    succeed, the output slots are as they were before it, and no call of
    [set_output] is among the calls the run made. *)
Theorem C3_no_output_on_failure (w : World) :
  gen_result (generated (this w)) ≠ 0 →
  succeeds (Compute w) = false
  ∧ outputs (ctx (world_of (Compute w))) = outputs (ctx w)
  ∧ ∃ added : list Event,
      trace (world_of (Compute w)) = trace w ++ added
      ∧ ∀ (index : nat) (t : Tensor), ev_set_output index t ∉ added.
Proof.
  intros Hres. rewrite Compute_unfold. cbv zeta.
  apply Z.eqb_neq in Hres. rewrite Hres.
  destruct (allocates (memory w)); [destruct (in_buffer (generated (this w)))|].
  - split; [|split].
    + unfold succeeds. cbn. rewrite Update_not_ok by reflexivity. reflexivity.
    + reflexivity.
    + eexists. split.
      * cbn. rewrite <- app_assoc. reflexivity.
      * intros index t Hin. no_set_output Hin.
  - split; [reflexivity|]. split; [reflexivity|].
    eexists. split.
    + cbn. rewrite <- app_assoc. reflexivity.
    + intros index t Hin. no_set_output Hin.
  - split; [|split].
    + unfold succeeds. cbn. rewrite Update_not_ok by reflexivity. reflexivity.
    + reflexivity.
    + eexists. split; [reflexivity|]. intros index t Hin. no_set_output Hin.
Qed.

(** ** The temporary tensor and the output *)

(** The run starts by asking for the temporary tensor. *)
Lemma trace_starts_with_allocation (op : SpiralWaveformOp) (m : Memory) :
  ∃ (st : Status) (rest : list Event),
    trace (world_of (invoke op m))
      = ev_allocate_temp DT_FLOAT [Z.pos SWF_MAX_WAVEFORM_SIZE; 2] st :: rest
    ∧ st = (if allocates m then Status_OK
            else errors.ResourceExhausted "OOM when allocating tensor").
Proof.
  by_cases op m; eexists; eexists; (split; [reflexivity|reflexivity]).
Qed.

(** Whenever the generator has been called, the temporary buffer exists and
    has [SWF_MAX_WAVEFORM_SIZE * 2] elements. *)
Lemma buffer_of_a_call (op : SpiralWaveformOp) (m : Memory) :
  generator_calls (trace (world_of (invoke op m))) ≠ [] →
  allocates m = true
  ∧ ∃ cells : list cell,
      heap (memory (world_of (invoke op m))) !! temp_id m = Some cells
      ∧ Z.of_nat (length cells) = Z.pos SWF_MAX_WAVEFORM_SIZE * 2.
Proof.
  pose proof temp_elems_eq as He. pose proof temp_elems_pos as Hp.
  by_cases op m; cbn [world_of]; intros Hcalls;
    try (exfalso; apply Hcalls; reflexivity);
    (split; [reflexivity|]); eexists;
    (split; [apply with_temp_lookup|]);
    rewrite ?filled_length, ?length_replicate by assumption; lia.
Qed.

(** C4.  Every run first asks [allocate_temp] for a float tensor of shape
    [SWF_MAX_WAVEFORM_SIZE, 2]; a call of the generator comes only after that
    request was granted, on a buffer of exactly [SWF_MAX_WAVEFORM_SIZE * 2]
    elements that did not exist before the run; and on success output 0 shows
    the first [L] rows of that buffer, [L] being the length the generator
    reported. *)
Theorem C4_output_is_prefix_of_temp_buffer (op : SpiralWaveformOp) (m : Memory) :
  (∃ (st : Status) (rest : list Event),
     trace (world_of (invoke op m))
       = ev_allocate_temp DT_FLOAT [Z.pos SWF_MAX_WAVEFORM_SIZE; 2] st :: rest
     ∧ (generator_calls rest ≠ [] → st = Status_OK))
  ∧ (generator_calls (trace (world_of (invoke op m))) ≠ [] →
       heap m !! temp_id m = None
       ∧ ∃ cells : list cell,
           heap (memory (world_of (invoke op m))) !! temp_id m = Some cells
           ∧ Z.of_nat (length cells) = Z.pos SWF_MAX_WAVEFORM_SIZE * 2)
  ∧ (succeeds (invoke op m) = true →
       ∃ (t : Tensor) (cells : list cell),
         outputs (ctx (world_of (invoke op m))) !! 0%nat = Some t
         ∧ heap (memory (world_of (invoke op m))) !! temp_id m = Some cells
         ∧ Z.of_nat (length cells) = Z.pos SWF_MAX_WAVEFORM_SIZE * 2
         ∧ tensor_data (memory (world_of (invoke op m))) t
             = Some (take (Z.to_nat (gen_waveform_length (generated op) * 2)) cells)).
Proof.
  split; [|split].
  - destruct (trace_starts_with_allocation op m) as (st & rest & Htrace & Hst).
    exists st, rest. split; [exact Htrace|].
    intros Hcalls. destruct (allocates m) eqn:Halloc; [exact Hst|].
    exfalso. apply Hcalls. revert Htrace.
    rewrite invoke_unfold, Halloc. cbn. intros [= _ <-]. reflexivity.
  - intros Hcalls. split; [apply temp_id_fresh|].
    apply buffer_of_a_call, Hcalls.
  - intros Hs.
    destruct (succeeds_inv op m Hs) as (_ & Hbuf & _ & _ & Hrun).
    rewrite Hrun. cbn [world_of].
    exists (output_tensor m (gen_waveform_length (generated op))),
           (filled (gen_waveform (generated op))).
    split; [apply published_output|].
    split; [apply with_temp_lookup|].
    split; [rewrite filled_length, temp_elems_eq by assumption; lia|].
    apply published_data.
Qed.

(** C5.  On success output 0 is a float tensor of shape [L, 2], [L] the
    reported length; read through memory it is a sequence of [2 * L] floats,
    row after row, and each of them the generator stored is there at its
    place. *)
Theorem C5_output_is_float_L_by_2 (op : SpiralWaveformOp) (m : Memory) :
  succeeds (invoke op m) = true →
  ∃ (t : Tensor) (cells : list cell),
    outputs (ctx (world_of (invoke op m))) !! 0%nat = Some t
    ∧ dtype t = DT_FLOAT
    ∧ shape t = [gen_waveform_length (generated op); 2]
    ∧ tensor_data (memory (world_of (invoke op m))) t = Some cells
    ∧ Z.of_nat (length cells) = gen_waveform_length (generated op) * 2
    ∧ ∀ (i : nat) (x : float32),
        Z.of_nat i < gen_waveform_length (generated op) * 2 →
        gen_waveform (generated op) !! i = Some x →
        cells !! i = Some (Some x).
Proof.
  intros Hs.
  destruct (succeeds_inv op m Hs) as (_ & Hbuf & _ & Hlen & Hrun).
  apply length_in_range_bounds in Hlen.
  rewrite Hrun. cbn [world_of].
  exists (output_tensor m (gen_waveform_length (generated op))).
  eexists. split; [apply published_output|].
  split; [reflexivity|]. split; [reflexivity|].
  split; [apply published_data|]. split.
  - rewrite length_take, filled_length, temp_elems_eq by assumption. lia.
  - intros i x Hi Hx. rewrite lookup_take_lt by lia.
    apply filled_lookup, Hx.
Qed.

(** ** The call of the generator *)

Lemma generator_calls_of_a_run (op : SpiralWaveformOp) (m : Memory) :
  generator_calls (trace (world_of (invoke op m))) =
    if allocates m then [call_args op] else [].
Proof.
  by_cases op m; reflexivity.
Qed.

(** C6, as amended.  A run whose temporary tensor is allocated calls the
    generator exactly once, with the nine members in the order
    [base_resolution_], [spiral_arms_], [field_of_view_], [max_grad_ampl_],
    [min_rise_time_], [dwell_time_], [readout_os_], [gradient_delay_],
    [larmor_const_], the first two as [long], the other seven converted to
    [double].  A run whose allocation fails does not call it. *)
Theorem C6_one_call_with_cast_members (op : SpiralWaveformOp) (m : Memory) :
  generator_calls (trace (world_of (invoke op m))) =
    if allocates m then
      [ {| arg_base_resolution := long_of_int (base_resolution_ op);
           arg_spiral_arms := long_of_int (spiral_arms_ op);
           arg_field_of_view := float_to_double (field_of_view_ op);
           arg_max_grad_ampl := float_to_double (max_grad_ampl_ op);
           arg_min_rise_time := float_to_double (min_rise_time_ op);
           arg_dwell_time := float_to_double (dwell_time_ op);
           arg_readout_os := float_to_double (readout_os_ op);
           arg_gradient_delay := float_to_double (gradient_delay_ op);
           arg_larmor_const := float_to_double (larmor_const_ op) |} ]
    else [].
Proof.
  rewrite generator_calls_of_a_run. destruct (allocates m); reflexivity.
Qed.

(** The status a run ends with is never a complaint about an argument. *)
Lemma status_of_a_run (op : SpiralWaveformOp) (m : Memory) :
  status (ctx (world_of (invoke op m))) = Status_OK
  ∨ (status (ctx (world_of (invoke op m)))
       = errors.ResourceExhausted "OOM when allocating tensor"
     ∧ allocates m = false)
  ∨ (status (ctx (world_of (invoke op m)))
       = errors.Internal "failed during `calculate_spiral_trajectory`"
     ∧ gen_result (generated op) ≠ 0).
Proof.
  by_cases op m; cbn; auto.
Qed.

(** C7, as amended.  Whatever values the nine attributes hold, as long as
    the two integers fit an [int] (non-positive values included, any floats),
    construction succeeds and stores them as they are; no run ends with
    [InvalidArgument]: an error is either the allocator's or the generator's
    nonzero return value; and the generator, when called, receives the stored
    values: the two integers as they are, each float as the [double] of the
    same value. *)
Theorem C7_attributes_are_not_validated
    (attrs : gmap string AttrValue) (base_resolution spiral_arms : Z)
    (field_of_view max_grad_ampl min_rise_time dwell_time readout_os
       gradient_delay larmor_const : float32) :
  is_int32 base_resolution = true →
  is_int32 spiral_arms = true →
  attrs !! "base_resolution" = Some (attr_i base_resolution) →
  attrs !! "spiral_arms" = Some (attr_i spiral_arms) →
  attrs !! "field_of_view" = Some (attr_f field_of_view) →
  attrs !! "max_grad_ampl" = Some (attr_f max_grad_ampl) →
  attrs !! "min_rise_time" = Some (attr_f min_rise_time) →
  attrs !! "dwell_time" = Some (attr_f dwell_time) →
  attrs !! "readout_os" = Some (attr_f readout_os) →
  attrs !! "gradient_delay" = Some (attr_f gradient_delay) →
  attrs !! "larmor_const" = Some (attr_f larmor_const) →
  let op := {| base_resolution_ := base_resolution;
               spiral_arms_ := spiral_arms;
               field_of_view_ := field_of_view;
               max_grad_ampl_ := max_grad_ampl;
               min_rise_time_ := min_rise_time;
               dwell_time_ := dwell_time;
               readout_os_ := readout_os;
               gradient_delay_ := gradient_delay;
               larmor_const_ := larmor_const |} in
  SpiralWaveformOp_new attrs = inr op
  ∧ ∀ m : Memory,
      code (status (ctx (world_of (invoke op m)))) ≠ INVALID_ARGUMENT
      ∧ (fails (invoke op m) = true →
           allocates m = false ∨ gen_result (generated op) ≠ 0)
      ∧ (allocates m = true →
           ∃ a : TrajectoryArgs,
             generator_calls (trace (world_of (invoke op m))) = [a]
             ∧ a = {| arg_base_resolution := base_resolution;
                      arg_spiral_arms := spiral_arms;
                      arg_field_of_view := float_to_double field_of_view;
                      arg_max_grad_ampl := float_to_double max_grad_ampl;
                      arg_min_rise_time := float_to_double min_rise_time;
                      arg_dwell_time := float_to_double dwell_time;
                      arg_readout_os := float_to_double readout_os;
                      arg_gradient_delay := float_to_double gradient_delay;
                      arg_larmor_const := float_to_double larmor_const |}
             ∧ arg_base_resolution a = base_resolution
             ∧ arg_spiral_arms a = spiral_arms
             ∧ widened field_of_view (arg_field_of_view a)
             ∧ widened max_grad_ampl (arg_max_grad_ampl a)
             ∧ widened min_rise_time (arg_min_rise_time a)
             ∧ widened dwell_time (arg_dwell_time a)
             ∧ widened readout_os (arg_readout_os a)
             ∧ widened gradient_delay (arg_gradient_delay a)
             ∧ widened larmor_const (arg_larmor_const a)).
Proof.
  intros Hbr Hsa H1 H2 H3 H4 H5 H6 H7 H8 H9 op. split.
  - unfold SpiralWaveformOp_new, GetAttr_int, GetAttr_float.
    rewrite H1, H2, H3, H4, H5, H6, H7, H8, H9, Hbr, Hsa. reflexivity.
  - intros m. split; [|split].
    + destruct (status_of_a_run op m) as [E|[[E _]|[E _]]]; rewrite E; discriminate.
    + intros Hf.
      destruct (status_of_a_run op m) as [E|[[_ E]|[_ E]]]; auto.
      unfold fails in Hf. rewrite E in Hf. cbn in Hf.
      rewrite andb_false_r in Hf. discriminate.
    + intros Halloc. exists (call_args op).
      rewrite generator_calls_of_a_run, Halloc.
      repeat (split; [reflexivity|]).
      cbn [call_args op arg_field_of_view arg_max_grad_ampl arg_min_rise_time
           arg_dwell_time arg_readout_os arg_gradient_delay arg_larmor_const
           field_of_view_ max_grad_ampl_ min_rise_time_ dwell_time_ readout_os_
           gradient_delay_ larmor_const_].
      unfold widened. repeat apply conj; intros Hv; apply float_to_double_exact, Hv.
Qed.

(** ** Determinism *)

(** What output 0 shows when the generator has stored all it reports: the
    first [L * 2] floats it stored, and nothing else. *)
Lemma published_data_stored (op : SpiralWaveformOp) (m : Memory) :
  in_buffer (generated op) = true →
  gen_waveform_length (generated op) * 2
    <= Z.of_nat (length (gen_waveform (generated op))) →
  tensor_data (memory (published (start op m)))
      (output_tensor m (gen_waveform_length (generated op)))
    = Some (Some <$> take (Z.to_nat (gen_waveform_length (generated op) * 2))
                       (gen_waveform (generated op))).
Proof.
  intros Hbuf Hall. rewrite published_data, filled_eq. f_equal.
  rewrite take_app_le by (rewrite length_fmap; lia).
  symmetry. apply fmap_take.
Qed.

(** C8, as amended.  Take two runs of kernels with the same members, in any
    two states of the allocator that agree on whether the temporary tensor
    can be allocated, and a generator that, when it returns 0, has stored
    every float of the rows it reports.  The runs cannot be told apart: both
    come back or neither does, the status is the same, and output 0, if set,
    has the same type, the same shape and the same elements, each of them a
    float the generator stored (no element is memory that was never
    written). *)
Theorem C8_same_members_same_observation (op : SpiralWaveformOp) (m1 m2 : Memory) :
  allocates m1 = allocates m2 →
  stores_reported_rows (generated op) = true →
  observation (invoke op m1) = observation (invoke op m2)
  ∧ ∀ (m : Memory) (t : Tensor),
      outputs (ctx (world_of (invoke op m))) !! 0%nat = Some t →
      dtype t = DT_FLOAT
      ∧ shape t = [gen_waveform_length (generated op); 2]
      ∧ tensor_data (memory (world_of (invoke op m))) t
        = Some (Some <$> take (Z.to_nat (gen_waveform_length (generated op) * 2))
                           (gen_waveform (generated op))).
Proof.
  intros Hsame Hall.
  assert (Hdata : ∀ (m : Memory) (t : Tensor),
      outputs (ctx (world_of (invoke op m))) !! 0%nat = Some t →
      gen_result (generated op) = 0
      ∧ t = output_tensor m (gen_waveform_length (generated op))
      ∧ invoke op m = Normal tt (published (start op m))
      ∧ in_buffer (generated op) = true).
  { intros m t. by_cases op m; cbn [world_of]; intros Hout;
      try (cbn in Hout; rewrite lookup_empty in Hout; discriminate Hout).
    rewrite published_output in Hout. injection Hout as <-. auto. }
  assert (Hrows : gen_result (generated op) = 0 →
      gen_waveform_length (generated op) * 2
        <= Z.of_nat (length (gen_waveform (generated op)))).
  { intros Hres. unfold stores_reported_rows in Hall. rewrite Hres in Hall.
    cbn in Hall. apply Z.leb_le, Hall. }
  split.
  - unfold observation.
    rewrite !invoke_unfold. cbv zeta. rewrite <- Hsame.
    destruct (allocates m1); [|reflexivity].
    destruct (in_buffer (generated op)) eqn:Hbuf; [|reflexivity].
    destruct (Z.eqb_spec (gen_result (generated op)) 0) as [Hres|Hres]; [|reflexivity].
    destruct (length_in_range (generated op)); [|reflexivity].
    cbn [world_of returns]. rewrite !published_output.
    cbn [fmap option_fmap option_map].
    rewrite !published_data_stored by auto.
    reflexivity.
  - intros m t Hout.
    destruct (Hdata m t Hout) as (Hres & -> & Hrun & Hbuf).
    split; [reflexivity|]. split; [reflexivity|].
    rewrite Hrun. cbn [world_of]. apply published_data_stored; auto.
Qed.

(** ** What a run leaves alone *)

Lemma tensor_data_extends (m m' : Memory) (t : Tensor) (d : list cell) :
  extends m m' → tensor_data m t = Some d → tensor_data m' t = Some d.
Proof.
  unfold tensor_data. intros Hext. destruct (buf t) as [[[root offset] count]|]; [|auto].
  destruct (heap m !! root) as [b|] eqn:Hb; [|discriminate].
  rewrite (Hext _ _ Hb). auto.
Qed.

Lemma Compute_memory (w : World) :
  memory (world_of (Compute w)) = memory w
  ∨ ∃ cells : list cell, memory (world_of (Compute w)) = with_temp (memory w) cells.
Proof.
  rewrite Compute_unfold. cbv zeta.
  destruct (allocates (memory w)); [|left; reflexivity].
  destruct (in_buffer (generated (this w))); [|right; eexists; reflexivity].
  destruct (gen_result (generated (this w)) =? 0); [|right; eexists; reflexivity].
  destruct (length_in_range (generated (this w))); right; eexists; reflexivity.
Qed.

Lemma Compute_this (w : World) : this (world_of (Compute w)) = this w.
Proof.
  rewrite Compute_unfold. cbv zeta.
  destruct (allocates (memory w)); [|reflexivity].
  destruct (in_buffer (generated (this w))); [|reflexivity].
  destruct (gen_result (generated (this w)) =? 0); [|reflexivity].
  destruct (length_in_range (generated (this w))); reflexivity.
Qed.

(** C9.  A run of [Compute], however it ends, leaves the nine members of the
    kernel as they were.  It changes no buffer that existed before: the only
    buffer it touches is one it allocated itself, under an identifier no
    earlier buffer has, so every tensor (the output of an earlier run
    included) shows after the run what it showed before. *)
Theorem C9_Compute_keeps_members_and_old_buffers (w : World) :
  this (world_of (Compute w)) = this w
  ∧ (∀ (id : positive) (cells : list cell),
       heap (memory w) !! id = Some cells →
       heap (memory (world_of (Compute w))) !! id = Some cells)
  ∧ heap (memory w) !! temp_id (memory w) = None
  ∧ (∀ id : positive,
       heap (memory w) !! id = None →
       heap (memory (world_of (Compute w))) !! id ≠ None →
       id = temp_id (memory w))
  ∧ (∀ (t : Tensor) (d : list cell),
       tensor_data (memory w) t = Some d →
       tensor_data (memory (world_of (Compute w))) t = Some d).
Proof.
  assert (Hext : extends (memory w) (memory (world_of (Compute w)))).
  { intros id cells Hid. destruct (Compute_memory w) as [E|[c E]]; rewrite E.
    - exact Hid.
    - apply with_temp_lookup_other, Hid. }
  split; [apply Compute_this|]. split; [exact Hext|].
  split; [apply temp_id_fresh|]. split.
  - intros id Hold Hnew. destruct (Compute_memory w) as [E|[c E]]; rewrite E in Hnew.
    + contradiction.
    + destruct (decide (temp_id (memory w) = id)) as [Heq|Hne]; [auto|].
      unfold with_temp in Hnew. cbn [heap] in Hnew.
      rewrite lookup_insert_ne in Hnew by assumption. contradiction.
  - intros t d. apply tensor_data_extends, Hext.
Qed.

(** ** The bounds of the slice *)

(** C10.  Once the generator has returned 0 (the temporary tensor allocated,
    the stores inside it), nothing in [Compute] stands between the reported
    length and [Slice]: the slice exists, and [Compute] comes back, exactly
    when the length lies between 0 and [SWF_MAX_WAVEFORM_SIZE]; it is then a
    window inside the temporary buffer. *)
Theorem C10_slice_in_bounds_iff_length_in_range (op : SpiralWaveformOp) (m : Memory) :
  allocates m = true →
  in_buffer (generated op) = true →
  gen_result (generated op) = 0 →
  (is_Some (Slice (temp_tensor m) 0 (gen_waveform_length (generated op)))
     ↔ 0 <= gen_waveform_length (generated op) <= Z.pos SWF_MAX_WAVEFORM_SIZE)
  ∧ (returns (invoke op m) = true
     ↔ 0 <= gen_waveform_length (generated op) <= Z.pos SWF_MAX_WAVEFORM_SIZE)
  ∧ (0 <= gen_waveform_length (generated op) <= Z.pos SWF_MAX_WAVEFORM_SIZE →
       ∃ (t : Tensor) (cells : list cell) (count : Z),
         Slice (temp_tensor m) 0 (gen_waveform_length (generated op)) = Some t
         ∧ outputs (ctx (world_of (invoke op m))) !! 0%nat = Some t
         ∧ buf t = Some (temp_id m, 0, count)
         ∧ heap (memory (world_of (invoke op m))) !! temp_id m = Some cells
         ∧ 0 <= count <= Z.of_nat (length cells)).
Proof.
  intros Halloc Hbuf Hres.
  rewrite invoke_unfold, Slice_temp_tensor. cbv zeta.
  rewrite Halloc, Hbuf, Hres. change (0 =? 0) with true. cbv iota.
  fold (length_in_range (generated op)).
  rewrite <- length_in_range_bounds.
  destruct (length_in_range (generated op)) eqn:Hlen.
  - split; [split; eauto|]. split; [split; auto|].
    intros _. apply length_in_range_bounds in Hlen.
    exists (output_tensor m (gen_waveform_length (generated op))).
    exists (filled (gen_waveform (generated op))).
    exists (gen_waveform_length (generated op) * 2).
    split; [reflexivity|].
    split; [apply published_output|].
    split; [reflexivity|].
    split; [apply with_temp_lookup|].
    rewrite filled_length, temp_elems_eq by assumption. lia.
  - split; [split; [intros [t Ht]; discriminate Ht|discriminate]|].
    split; [split; discriminate|]. discriminate.
Qed.

(** ** Further properties of [Compute] *)

(** A run that sets output 0 published the waveform. *)
Lemma output_inv (op : SpiralWaveformOp) (m : Memory) (t : Tensor) :
  outputs (ctx (world_of (invoke op m))) !! 0%nat = Some t →
  t = output_tensor m (gen_waveform_length (generated op))
  ∧ memory (world_of (invoke op m))
    = with_temp m (filled (gen_waveform (generated op)))
  ∧ succeeds (invoke op m) = true.
Proof.
  by_cases op m; cbn [world_of]; intros Hout;
    try (cbn in Hout; rewrite lookup_empty in Hout; discriminate Hout).
  rewrite published_output in Hout. injection Hout as <-.
  split; [reflexivity|]. split; reflexivity.
Qed.

(** X6.  [Compute] does not clear the temporary tensor.  When the generator
    reports more rows than it stored, a successful run publishes them all the
    same: the elements of output 0 past the last stored float are memory as
    the allocator handed it out. *)
Theorem X6_unwritten_rows_are_uninitialised
    (op : SpiralWaveformOp) (m : Memory) (i : nat) :
  succeeds (invoke op m) = true →
  (length (gen_waveform (generated op)) <= i)%nat →
  Z.of_nat i < gen_waveform_length (generated op) * 2 →
  ∃ (t : Tensor) (cells : list cell),
    outputs (ctx (world_of (invoke op m))) !! 0%nat = Some t
    ∧ tensor_data (memory (world_of (invoke op m))) t = Some cells
    ∧ cells !! i = Some None.
Proof.
  intros Hs Hstored Hrow.
  destruct (succeeds_inv op m Hs) as (_ & Hbuf & _ & Hlen & Hrun).
  apply length_in_range_bounds in Hlen.
  pose proof temp_elems_eq as He.
  rewrite Hrun. cbn [world_of].
  exists (output_tensor m (gen_waveform_length (generated op))).
  eexists. split; [apply published_output|].
  split; [apply published_data|].
  rewrite lookup_take_lt by lia. rewrite filled_eq.
  rewrite lookup_app_r by (rewrite length_fmap; lia).
  apply lookup_replicate. split; [reflexivity|].
  rewrite length_fmap. unfold in_buffer in Hbuf. lia.
Qed.

(** X7.  Whatever the context holds when [Compute] starts, the run touches
    no output slot but slot 0, and the calls it makes outside the kernel are
    one of three sequences: the refused allocation alone; the allocation and
    the generator; or allocation, generator and one [set_output] for slot
    0. *)
Theorem X7_only_slot_0_and_fixed_call_order (w : World) :
  (∀ index : nat, index ≠ 0%nat →
     outputs (ctx (world_of (Compute w))) !! index = outputs (ctx w) !! index)
  ∧ ∃ added : list Event,
      trace (world_of (Compute w)) = trace w ++ added
      ∧ (added = [ev_allocate_temp DT_FLOAT [Z.pos SWF_MAX_WAVEFORM_SIZE; 2]
                    (errors.ResourceExhausted "OOM when allocating tensor")]
         ∨ added = [ev_allocate_temp DT_FLOAT [Z.pos SWF_MAX_WAVEFORM_SIZE; 2] Status_OK;
                    ev_generate (call_args (this w))]
         ∨ ∃ t : Tensor,
             added = [ev_allocate_temp DT_FLOAT [Z.pos SWF_MAX_WAVEFORM_SIZE; 2] Status_OK;
                      ev_generate (call_args (this w));
                      ev_set_output 0 t]
             ∧ outputs (ctx (world_of (Compute w))) !! 0%nat = Some t).
Proof.
  rewrite Compute_unfold. cbv zeta.
  destruct (allocates (memory w));
    [destruct (in_buffer (generated (this w)));
     [destruct (gen_result (generated (this w)) =? 0);
      [destruct (length_in_range (generated (this w)))|]|]|];
    (split; [intros index Hne; cbn; rewrite ?lookup_insert_ne by auto; reflexivity|]);
    eexists; (split; [cbn; rewrite <- ?app_assoc; reflexivity|]); auto.
  right. right. eexists. split; [reflexivity|]. cbn. apply lookup_insert_eq.
Qed.

Lemma temp_id_with_temp (m : Memory) (cells : list cell) :
  temp_id (with_temp m cells) ≠ temp_id m.
Proof.
  intros Heq. pose proof (temp_id_fresh (with_temp m cells)) as Hfresh.
  rewrite Heq, with_temp_lookup in Hfresh. discriminate Hfresh.
Qed.

(** X8.  The outputs of two runs in a row never share memory: the second
    run, started on the allocator as the first left it, publishes a window on
    a different buffer. *)
Theorem X8_successive_outputs_do_not_alias
    (op1 op2 : SpiralWaveformOp) (m : Memory) (t1 t2 : Tensor) :
  outputs (ctx (world_of (invoke op1 m))) !! 0%nat = Some t1 →
  outputs (ctx (world_of (invoke op2 (memory (world_of (invoke op1 m))))))
    !! 0%nat = Some t2 →
  ∃ (root1 root2 : positive) (count1 count2 : Z),
    buf t1 = Some (root1, 0, count1)
    ∧ buf t2 = Some (root2, 0, count2)
    ∧ root1 ≠ root2.
Proof.
  intros H1 H2.
  apply output_inv in H1 as (-> & Hmem & _).
  apply output_inv in H2 as (-> & _ & _).
  rewrite Hmem. do 4 eexists.
  split; [reflexivity|]. split; [reflexivity|].
  intros Heq. symmetry in Heq. revert Heq. apply temp_id_with_temp.
Qed.
End Kernel.

(** ** The theorems at work on the small instance

    Capacity 4, the generator [ramp_generator 4]; the temporary tensor takes
    [4 * 2 * 4 = 32] bytes. *)

Lemma ramp_generator_reports_samples (cap : positive) :
  reports_samples (ramp_generator cap).
Proof.
  intros op Hvalid _. unfold valid_parameters in Hvalid.
  repeat (apply andb_true_iff in Hvalid; destruct Hvalid as [Hvalid ?]).
  unfold generated, apply_generator, ramp_generator, call_args, long_of_int.
  cbn [gen_waveform_length arg_spiral_arms]. lia.
Qed.

(** With 16 bytes left the allocation fails, and so does the operation,
    although the generator would return 0: failure is not only the
    generator's. *)
Lemma C1_counterexample :
  ¬ (fails (invoke 4 (ramp_generator 4) (unit_op 256 2) (empty_memory 16)) = true
     ↔ gen_result (generated (ramp_generator 4) (unit_op 256 2)) ≠ 0).
Proof.
  intros [Hfails _]. apply Hfails; reflexivity.
Qed.

Lemma C1_witness :
  fails (invoke 4 (ramp_generator 4) (unit_op 0 2) (empty_memory 1024)) = true
  ∧ status (ctx (world_of (invoke 4 (ramp_generator 4) (unit_op 0 2) (empty_memory 1024))))
      = errors.Internal "failed during `calculate_spiral_trajectory`"
  ∧ succeeds (invoke 4 (ramp_generator 4) (unit_op 256 2) (empty_memory 1024)) = true.
Proof.
  pose proof (C1_fails_iff_no_memory_or_nonzero 4 (ramp_generator 4)
                (unit_op 0 2) (empty_memory 1024)) as (Hiff & _ & Hint & _).
  pose proof (C1_fails_iff_no_memory_or_nonzero 4 (ramp_generator 4)
                (unit_op 256 2) (empty_memory 1024)) as (_ & _ & _ & Hok).
  split; [|split].
  - apply Hiff. right. split; [reflexivity|discriminate].
  - apply Hint; [reflexivity|reflexivity|discriminate].
  - apply Hok; reflexivity.
Defined.

Lemma C2_witness :
  valid_parameters (unit_op 256 2) = true
  ∧ succeeds (invoke 4 (ramp_generator 4) (unit_op 256 2) (empty_memory 1024)) = true
  ∧ ∃ (t : Tensor) (L : Z),
      outputs (ctx (world_of (invoke 4 (ramp_generator 4) (unit_op 256 2)
                                (empty_memory 1024)))) !! 0%nat = Some t
      ∧ shape t = [L; 2]
      ∧ L = gen_waveform_length (generated (ramp_generator 4) (unit_op 256 2))
      ∧ 1 <= L <= 4.
Proof.
  split; [reflexivity|]. split; [reflexivity|].
  apply (C2_length_between_one_and_capacity 4 (ramp_generator 4)
           (ramp_generator_reports_samples 4) (unit_op 256 2) (empty_memory 1024));
    reflexivity.
Defined.

(** Without the generator's promise the kernel does publish an empty
    waveform: no arms, return value 0. *)
Example empty_waveform_is_published :
  succeeds (invoke 4 (ramp_generator 4) (unit_op 256 0) (empty_memory 1024)) = true
  ∧ (shape <$> outputs (ctx (world_of (invoke 4 (ramp_generator 4) (unit_op 256 0)
                                         (empty_memory 1024)))) !! 0%nat)
      = Some [0; 2].
Proof. split; reflexivity. Qed.

Lemma C3_witness :
  gen_result (generated (ramp_generator 4) (unit_op 0 2)) ≠ 0
  ∧ succeeds (invoke 4 (ramp_generator 4) (unit_op 0 2) (used_memory 1024)) = false
  ∧ outputs (ctx (world_of (invoke 4 (ramp_generator 4) (unit_op 0 2) (used_memory 1024))))
      = ∅.
Proof.
  assert (Hres : gen_result (generated (ramp_generator 4) (unit_op 0 2)) ≠ 0)
    by discriminate.
  split; [exact Hres|].
  destruct (C3_no_output_on_failure 4 (ramp_generator 4)
              (start (unit_op 0 2) (used_memory 1024)) Hres) as (Hs & Hout & _).
  split; [exact Hs|exact Hout].
Defined.

Lemma C4_witness :
  ∃ (t : Tensor) (cells : list cell),
    outputs (ctx (world_of (invoke 4 (ramp_generator 4) (unit_op 256 2)
                              (used_memory 1024)))) !! 0%nat = Some t
    ∧ heap (memory (world_of (invoke 4 (ramp_generator 4) (unit_op 256 2)
                                (used_memory 1024))))
        !! temp_id (used_memory 1024) = Some cells
    ∧ Z.of_nat (length cells) = 4 * 2
    ∧ tensor_data (memory (world_of (invoke 4 (ramp_generator 4) (unit_op 256 2)
                                       (used_memory 1024)))) t
        = Some (take (Z.to_nat (2 * 2)) cells).
Proof.
  apply (C4_output_is_prefix_of_temp_buffer 4 (ramp_generator 4)
           (unit_op 256 2) (used_memory 1024)).
  reflexivity.
Defined.

Lemma C5_witness :
  succeeds (invoke 4 (ramp_generator 4) (unit_op 256 3) (empty_memory 1024)) = true
  ∧ ∃ (t : Tensor) (cells : list cell),
      outputs (ctx (world_of (invoke 4 (ramp_generator 4) (unit_op 256 3)
                                (empty_memory 1024)))) !! 0%nat = Some t
      ∧ dtype t = DT_FLOAT
      ∧ shape t = [3; 2]
      ∧ tensor_data (memory (world_of (invoke 4 (ramp_generator 4) (unit_op 256 3)
                                         (empty_memory 1024)))) t = Some cells
      ∧ Z.of_nat (length cells) = 3 * 2.
Proof.
  split; [reflexivity|].
  destruct (C5_output_is_float_L_by_2 4 (ramp_generator 4) (unit_op 256 3)
              (empty_memory 1024) eq_refl)
    as (t & cells & Hout & Hty & Hsh & Hdata & Hlen & _).
  exists t, cells. auto.
Defined.

Lemma C6_witness :
  allocates 4 (empty_memory 1024) = true
  ∧ generator_calls
      (trace (world_of (invoke 4 (ramp_generator 4) (unit_op 256 2) (empty_memory 1024))))
    = [ {| arg_base_resolution := 256;
           arg_spiral_arms := 2;
           arg_field_of_view := S754_finite false 4503599627370496 (-52);
           arg_max_grad_ampl := S754_finite false 4503599627370496 (-52);
           arg_min_rise_time := S754_finite false 4503599627370496 (-52);
           arg_dwell_time := S754_finite false 4503599627370496 (-52);
           arg_readout_os := S754_finite false 4503599627370496 (-52);
           arg_gradient_delay := S754_zero false;
           arg_larmor_const := S754_finite false 4503599627370496 (-52) |} ].
Proof.
  split; [reflexivity|].
  rewrite (C6_one_call_with_cast_members 4 (ramp_generator 4)). reflexivity.
Defined.

(** With 16 bytes left the generator is not called at all. *)
Lemma C6_counterexample :
  length (generator_calls
            (trace (world_of (invoke 4 (ramp_generator 4) (unit_op 256 2)
                                (empty_memory 16))))) ≠ 1%nat.
Proof.
  intros Hone. vm_compute in Hone. discriminate Hone.
Qed.

(** Attributes no caller should pass, and what the generator is called with:
    the same numbers, the floats as doubles. *)
Lemma C7_witness :
  SpiralWaveformOp_new nonpositive_attrs
    = inr {| base_resolution_ := -5; spiral_arms_ := 0;
             field_of_view_ := float_minus_one; max_grad_ampl_ := float_minus_one;
             min_rise_time_ := float_minus_one; dwell_time_ := float_minus_one;
             readout_os_ := S754_zero false; gradient_delay_ := float_minus_one;
             larmor_const_ := float_minus_one |}
  ∧ code (status (ctx (world_of
       (invoke 4 (ramp_generator 4)
          {| base_resolution_ := -5; spiral_arms_ := 0;
             field_of_view_ := float_minus_one; max_grad_ampl_ := float_minus_one;
             min_rise_time_ := float_minus_one; dwell_time_ := float_minus_one;
             readout_os_ := S754_zero false; gradient_delay_ := float_minus_one;
             larmor_const_ := float_minus_one |}
          (empty_memory 1024))))) ≠ INVALID_ARGUMENT
  ∧ generator_calls (trace (world_of
       (invoke 4 (ramp_generator 4)
          {| base_resolution_ := -5; spiral_arms_ := 0;
             field_of_view_ := float_minus_one; max_grad_ampl_ := float_minus_one;
             min_rise_time_ := float_minus_one; dwell_time_ := float_minus_one;
             readout_os_ := S754_zero false; gradient_delay_ := float_minus_one;
             larmor_const_ := float_minus_one |}
          (empty_memory 1024))))
    = [ {| arg_base_resolution := -5;
           arg_spiral_arms := 0;
           arg_field_of_view := S754_finite true 4503599627370496 (-52);
           arg_max_grad_ampl := S754_finite true 4503599627370496 (-52);
           arg_min_rise_time := S754_finite true 4503599627370496 (-52);
           arg_dwell_time := S754_finite true 4503599627370496 (-52);
           arg_readout_os := S754_zero false;
           arg_gradient_delay := S754_finite true 4503599627370496 (-52);
           arg_larmor_const := S754_finite true 4503599627370496 (-52) |} ]
  ∧ same_value float_minus_one (S754_finite true 4503599627370496 (-52)).
Proof.
  pose proof (C7_attributes_are_not_validated 4 (ramp_generator 4) nonpositive_attrs
                (-5) 0 float_minus_one float_minus_one float_minus_one float_minus_one
                (S754_zero false) float_minus_one float_minus_one
                eq_refl eq_refl eq_refl eq_refl eq_refl eq_refl eq_refl eq_refl
                eq_refl eq_refl eq_refl) as [Hnew Hrun].
  destruct (Hrun (empty_memory 1024)) as (Hcode & _ & Hcall).
  destruct (Hcall eq_refl) as (a & Hcalls & Ha & _ & _ & Hfov & _).
  split; [exact Hnew|]. split; [exact Hcode|]. split.
  - rewrite Hcalls, Ha. reflexivity.
  - rewrite Ha in Hfov. apply (Hfov eq_refl).
Defined.

(** A resolution of [2^31] is an integer attribute but not an [int]: the
    constructor's [GetAttr] refuses it with [InvalidArgument]. *)
Lemma C7_counterexample :
  ∃ s : Status,
    SpiralWaveformOp_new (<["base_resolution" := attr_i (2 ^ 31)]> nonpositive_attrs)
      = inl s
    ∧ code s = INVALID_ARGUMENT.
Proof.
  eexists. split; reflexivity.
Qed.

(** The same kernel with and without room for the temporary tensor: one run
    succeeds, the other fails. *)
Lemma C8_counterexample :
  observation (invoke 4 (ramp_generator 4) (unit_op 256 2) (empty_memory 1024))
  ≠ observation (invoke 4 (ramp_generator 4) (unit_op 256 2) (empty_memory 16)).
Proof.
  intros Hsame. apply (f_equal (λ o, code o.1.2)) in Hsame.
  discriminate Hsame.
Qed.

Lemma C8_witness :
  allocates 4 (empty_memory 1024) = allocates 4 (used_memory 64)
  ∧ stores_reported_rows (generated (ramp_generator 4) (unit_op 256 2)) = true
  ∧ observation (invoke 4 (ramp_generator 4) (unit_op 256 2) (empty_memory 1024))
    = observation (invoke 4 (ramp_generator 4) (unit_op 256 2) (used_memory 64))
  ∧ memory (world_of (invoke 4 (ramp_generator 4) (unit_op 256 2) (empty_memory 1024)))
    ≠ memory (world_of (invoke 4 (ramp_generator 4) (unit_op 256 2) (used_memory 64))).
Proof.
  split; [reflexivity|]. split; [reflexivity|]. split.
  - apply (C8_same_members_same_observation 4 (ramp_generator 4)); reflexivity.
  - intros Hmem. apply (f_equal bytes_free) in Hmem. discriminate Hmem.
Defined.

(** Two runs in a row: the second leaves the kernel and the first one's
    output alone, and works on a buffer of its own. *)
Lemma C9_witness :
  let w1 := world_of (invoke 4 (ramp_generator 4) (unit_op 256 2) (used_memory 1024)) in
  let w2 := world_of (Compute 4 (ramp_generator 4)
                        (start (this w1) (memory w1))) in
  this w2 = unit_op 256 2
  ∧ (∀ (t : Tensor) (d : list cell),
       tensor_data (memory w1) t = Some d → tensor_data (memory w2) t = Some d)
  ∧ (buf <$> outputs (ctx w1) !! 0%nat) = Some (Some (3%positive, 0, 4))
  ∧ (buf <$> outputs (ctx w2) !! 0%nat) = Some (Some (4%positive, 0, 4)).
Proof.
  intros w1 w2.
  destruct (C9_Compute_keeps_members_and_old_buffers 4 (ramp_generator 4)
              (start (this w1) (memory w1))) as (Hthis & _ & _ & _ & Hdata).
  split; [exact Hthis|]. split; [exact Hdata|]. split; reflexivity.
Defined.

Lemma C10_witness :
  allocates 4 (empty_memory 1024) = true
  ∧ in_buffer 4 (generated (ramp_generator 4) (unit_op 256 4)) = true
  ∧ gen_result (generated (ramp_generator 4) (unit_op 256 4)) = 0
  ∧ returns (invoke 4 (ramp_generator 4) (unit_op 256 4) (empty_memory 1024)) = true.
Proof.
  split; [reflexivity|]. split; [reflexivity|]. split; [reflexivity|].
  apply (C10_slice_in_bounds_iff_length_in_range 4 (ramp_generator 4)
           (unit_op 256 4) (empty_memory 1024));
    [reflexivity|reflexivity|reflexivity|split; discriminate].
Defined.

(** One row more than the capacity, reported with return value 0: [Compute]
    goes into [Slice] and does not come back. *)
Example oversized_length_reaches_Slice :
  gen_result (generated (ramp_generator 4) (unit_op 256 5)) = 0
  ∧ Slice (temp_tensor 4 (empty_memory 1024)) 0
      (gen_waveform_length (generated (ramp_generator 4) (unit_op 256 5))) = None
  ∧ returns (invoke 4 (ramp_generator 4) (unit_op 256 5) (empty_memory 1024)) = false.
Proof. repeat split. Qed.

(** ** The constructor *)

Lemma GetAttr_int_inr (attrs : gmap string AttrValue) (name : string) (i : Z) :
  GetAttr_int attrs name = inr i ↔ attrs !! name = Some (attr_i i) ∧ is_int32 i = true.
Proof.
  unfold GetAttr_int. split.
  - destruct (attrs !! name) as [[j| | |]|]; try discriminate.
    destruct (is_int32 j) eqn:Hj; [|discriminate].
    intros [= <-]. auto.
  - intros [-> ->]. reflexivity.
Qed.

Lemma GetAttr_float_inr (attrs : gmap string AttrValue) (name : string) (f : float32) :
  GetAttr_float attrs name = inr f ↔ attrs !! name = Some (attr_f f).
Proof.
  unfold GetAttr_float. split.
  - destruct (attrs !! name) as [[| g | |]|]; try discriminate.
    intros [= <-]. reflexivity.
  - intros ->. reflexivity.
Qed.

(** What a kernel that was constructed tells about the attributes. *)
Lemma SpiralWaveformOp_new_inr (attrs : gmap string AttrValue) (op : SpiralWaveformOp) :
  SpiralWaveformOp_new attrs = inr op →
  (attrs !! "base_resolution" = Some (attr_i (base_resolution_ op))
   ∧ is_int32 (base_resolution_ op) = true)
  ∧ (attrs !! "spiral_arms" = Some (attr_i (spiral_arms_ op))
     ∧ is_int32 (spiral_arms_ op) = true)
  ∧ attrs !! "field_of_view" = Some (attr_f (field_of_view_ op))
  ∧ attrs !! "max_grad_ampl" = Some (attr_f (max_grad_ampl_ op))
  ∧ attrs !! "min_rise_time" = Some (attr_f (min_rise_time_ op))
  ∧ attrs !! "dwell_time" = Some (attr_f (dwell_time_ op))
  ∧ attrs !! "readout_os" = Some (attr_f (readout_os_ op))
  ∧ attrs !! "gradient_delay" = Some (attr_f (gradient_delay_ op))
  ∧ attrs !! "larmor_const" = Some (attr_f (larmor_const_ op)).
Proof.
  unfold SpiralWaveformOp_new, require.
  destruct (GetAttr_int attrs "base_resolution") as [|v1] eqn:H1; [discriminate|].
  destruct (GetAttr_int attrs "spiral_arms") as [|v2] eqn:H2; [discriminate|].
  destruct (GetAttr_float attrs "field_of_view") as [|v3] eqn:H3; [discriminate|].
  destruct (GetAttr_float attrs "max_grad_ampl") as [|v4] eqn:H4; [discriminate|].
  destruct (GetAttr_float attrs "min_rise_time") as [|v5] eqn:H5; [discriminate|].
  destruct (GetAttr_float attrs "dwell_time") as [|v6] eqn:H6; [discriminate|].
  destruct (GetAttr_float attrs "readout_os") as [|v7] eqn:H7; [discriminate|].
  destruct (GetAttr_float attrs "gradient_delay") as [|v8] eqn:H8; [discriminate|].
  destruct (GetAttr_float attrs "larmor_const") as [|v9] eqn:H9; [discriminate|].
  intros [= <-]. cbn.
  apply GetAttr_int_inr in H1, H2.
  apply GetAttr_float_inr in H3, H4, H5, H6, H7, H8, H9.
  auto 10.
Qed.

(** X1.  Construction succeeds exactly when each of the nine attributes is
    there with the kind its member needs, the two integers fitting an [int];
    the members are then the attribute values, unchanged.  What else the node
    carries does not matter. *)
Theorem X1_construction_succeeds_iff
    (attrs : gmap string AttrValue) (op : SpiralWaveformOp) :
  SpiralWaveformOp_new attrs = inr op ↔
    (attrs !! "base_resolution" = Some (attr_i (base_resolution_ op))
     ∧ is_int32 (base_resolution_ op) = true)
    ∧ (attrs !! "spiral_arms" = Some (attr_i (spiral_arms_ op))
       ∧ is_int32 (spiral_arms_ op) = true)
    ∧ attrs !! "field_of_view" = Some (attr_f (field_of_view_ op))
    ∧ attrs !! "max_grad_ampl" = Some (attr_f (max_grad_ampl_ op))
    ∧ attrs !! "min_rise_time" = Some (attr_f (min_rise_time_ op))
    ∧ attrs !! "dwell_time" = Some (attr_f (dwell_time_ op))
    ∧ attrs !! "readout_os" = Some (attr_f (readout_os_ op))
    ∧ attrs !! "gradient_delay" = Some (attr_f (gradient_delay_ op))
    ∧ attrs !! "larmor_const" = Some (attr_f (larmor_const_ op)).
Proof.
  split; [apply SpiralWaveformOp_new_inr|].
  intros ([H1 R1] & [H2 R2] & H3 & H4 & H5 & H6 & H7 & H8 & H9).
  unfold SpiralWaveformOp_new, GetAttr_int, GetAttr_float.
  rewrite H1, H2, H3, H4, H5, H6, H7, H8, H9, R1, R2. cbn.
  destruct op; reflexivity.
Qed.

Lemma GetAttr_int_inl (attrs : gmap string AttrValue) (name : string) (s : Status) :
  GetAttr_int attrs name = inl s → code s = NOT_FOUND ∨ code s = INVALID_ARGUMENT.
Proof.
  unfold GetAttr_int.
  destruct (attrs !! name) as [[j| | |]|]; try destruct (is_int32 j);
    intros [= <-]; cbn; auto.
Qed.

Lemma GetAttr_float_inl (attrs : gmap string AttrValue) (name : string) (s : Status) :
  GetAttr_float attrs name = inl s → code s = NOT_FOUND ∨ code s = INVALID_ARGUMENT.
Proof.
  unfold GetAttr_float.
  destruct (attrs !! name) as [[| g | |]|]; intros [= <-]; cbn; auto.
Qed.

Ltac next_read name :=
  match goal with
  | |- context [GetAttr_int ?a name] =>
      let H := fresh "Hread" in
      destruct (GetAttr_int a name) eqn:H; cbn;
      [ split; [ split; [intros [= <-]; reflexivity | intros [= <-]; reflexivity]
               | intros [= <-]; eapply GetAttr_int_inl; eassumption ] | ]
  | |- context [GetAttr_float ?a name] =>
      let H := fresh "Hread" in
      destruct (GetAttr_float a name) eqn:H; cbn;
      [ split; [ split; [intros [= <-]; reflexivity | intros [= <-]; reflexivity]
               | intros [= <-]; eapply GetAttr_float_inl; eassumption ] | ]
  end.

(** X2.  When construction fails, its status is the error of the first of
    the nine reads, in the order of lines 29 to 37, that fails; later
    attributes are not looked at.  Such an error is [NotFound] (no such
    attribute) or [InvalidArgument] (wrong kind, or an integer that does not
    fit an [int]). *)
Theorem X2_construction_reports_first_error
    (attrs : gmap string AttrValue) (s : Status) :
  (SpiralWaveformOp_new attrs = inl s ↔ first_error attrs = Some s)
  ∧ (SpiralWaveformOp_new attrs = inl s →
       code s = NOT_FOUND ∨ code s = INVALID_ARGUMENT).
Proof.
  unfold first_error, attribute_reads, read_error, SpiralWaveformOp_new, require.
  cbn [omap list_omap fst snd].
  next_read "base_resolution". next_read "spiral_arms".
  next_read "field_of_view". next_read "max_grad_ampl".
  next_read "min_rise_time". next_read "dwell_time".
  next_read "readout_os". next_read "gradient_delay".
  next_read "larmor_const".
  split; [split; discriminate|discriminate].
Qed.

(** X3.  Take any one of the nine attributes away from a node a kernel can be
    constructed from: construction fails with [NotFound], naming that
    attribute. *)
Theorem X3_missing_attribute_is_not_found
    (attrs : gmap string AttrValue) (op : SpiralWaveformOp)
    (name : string) (kind : AttrKind) :
  SpiralWaveformOp_new attrs = inr op →
  (name, kind) ∈ attribute_reads →
  SpiralWaveformOp_new (delete name attrs)
    = inl (errors.NotFound ("No attr named " +:+ name)).
Proof.
  intros Hnew Hin.
  apply SpiralWaveformOp_new_inr in Hnew
    as ([H1 R1] & [H2 R2] & H3 & H4 & H5 & H6 & H7 & H8 & H9).
  unfold attribute_reads in Hin.
  repeat (apply elem_of_cons in Hin; destruct Hin as [[= -> ->]|Hin];
          [ unfold SpiralWaveformOp_new, GetAttr_int, GetAttr_float;
            rewrite ?lookup_delete_eq, ?lookup_delete_ne by discriminate;
            rewrite ?H1, ?H2, ?H3, ?H4, ?H5, ?H6, ?H7, ?H8, ?H9, ?R1, ?R2;
            reflexivity | ]).
  apply elem_of_nil in Hin. contradiction.
Qed.

Lemma X3_witness :
  SpiralWaveformOp_new (attrs_of (unit_op 256 16)) = inr (unit_op 256 16)
  ∧ SpiralWaveformOp_new (delete "dwell_time" (attrs_of (unit_op 256 16)))
    = inl (errors.NotFound "No attr named dwell_time").
Proof.
  split; [reflexivity|].
  apply (X3_missing_attribute_is_not_found (attrs_of (unit_op 256 16))
           (unit_op 256 16) "dwell_time" kind_float);
    [reflexivity|].
  unfold attribute_reads. repeat (first [apply list_elem_of_here | apply list_elem_of_further]).
Defined.

(** Two things wrong at once, the first read decides: no resolution at all
    and arms that are a string give [NotFound] for the resolution. *)
Lemma X2_witness :
  SpiralWaveformOp_new
    (delete "base_resolution" (<["spiral_arms" := attr_s "many"]> (attrs_of (unit_op 256 16))))
    = inl (errors.NotFound "No attr named base_resolution").
Proof.
  apply (X2_construction_reports_first_error
           (delete "base_resolution"
              (<["spiral_arms" := attr_s "many"]> (attrs_of (unit_op 256 16))))).
  reflexivity.
Defined.


(** ** The casts of the call *)

(** X4.  The casts of lines 54 to 62 lose nothing.  The two integers reach
    the generator as they are; each of the seven [float] members, a binary32
    number, reaches it as a binary64 number of the same value. *)
Theorem X4_casts_keep_values (op : SpiralWaveformOp) :
  float_members_valid op = true →
  arg_base_resolution (call_args op) = base_resolution_ op
  ∧ arg_spiral_arms (call_args op) = spiral_arms_ op
  ∧ Forall (λ p : (SpiralWaveformOp → float32) * (TrajectoryArgs → double),
              is_double (p.2 (call_args op)) = true
              ∧ same_value (p.1 op) (p.2 (call_args op)))
      float_arguments.
Proof.
  unfold float_members_valid, float_arguments. cbn [fmap list_fmap fst forallb].
  intros Hv.
  repeat (apply andb_true_iff in Hv; destruct Hv as [? Hv]).
  split; [reflexivity|]. split; [reflexivity|].
  repeat (apply Forall_cons; split; [apply float_to_double_exact; assumption|]).
  apply Forall_nil. exact I.
Qed.

Lemma X4_witness :
  float_members_valid (unit_op 256 16) = true
  ∧ same_value float_one (arg_field_of_view (call_args (unit_op 256 16)))
  ∧ arg_field_of_view (call_args (unit_op 256 16))
    = S754_finite false 4503599627370496 (-52).
Proof.
  split; [reflexivity|].
  destruct (X4_casts_keep_values (unit_op 256 16) eq_refl) as (_ & _ & Hall).
  apply Forall_cons in Hall as [[_ Hsame] _].
  split; [exact Hsame|reflexivity].
Defined.

(** X5.  Kernels whose float members are numbers (zeros, infinities and
    finite values; no NaN, whose payload is not modelled) and that differ in a
    member call the generator with different arguments: the casts merge no two
    numbers. *)
Theorem X5_different_members_different_arguments (op1 op2 : SpiralWaveformOp) :
  float_members_are_numbers op1 = true →
  float_members_are_numbers op2 = true →
  op1 ≠ op2 →
  call_args op1 ≠ call_args op2.
Proof.
  unfold float_members_are_numbers, float_arguments, is_number.
  cbn [fmap list_fmap fst forallb].
  intros Hv1 Hv2 Hne Hargs. apply Hne. clear Hne.
  repeat (apply andb_true_iff in Hv1; destruct Hv1 as [? Hv1]).
  repeat (apply andb_true_iff in Hv2; destruct Hv2 as [? Hv2]).
  repeat match goal with
         | H : _ && _ = true |- _ => apply andb_true_iff in H; destruct H as [H _]
         end.
  destruct op1, op2. cbn in *.
  injection Hargs as E1 E2 E3 E4 E5 E6 E7 E8 E9.
  unfold long_of_int in E1, E2. subst.
  f_equal; apply float_to_double_inj; assumption.
Qed.

(** Neighbouring floats stay apart: [1.0] and the next float after it. *)
Lemma X5_witness :
  call_args {| base_resolution_ := 256; spiral_arms_ := 16;
               field_of_view_ := float_one; max_grad_ampl_ := float_one;
               min_rise_time_ := float_one; dwell_time_ := float_one;
               readout_os_ := float_one; gradient_delay_ := float_one;
               larmor_const_ := float_one |}
  ≠ call_args {| base_resolution_ := 256; spiral_arms_ := 16;
                 field_of_view_ := S754_finite false 8388609 (-23);
                 max_grad_ampl_ := float_one;
                 min_rise_time_ := float_one; dwell_time_ := float_one;
                 readout_os_ := float_one; gradient_delay_ := float_one;
                 larmor_const_ := float_one |}.
Proof.
  apply X5_different_members_different_arguments;
    [reflexivity|reflexivity|discriminate].
Defined.

(** ** Further properties of [Compute], on the small instance *)

(** Three rows reported, two floats stored: elements 2 to 5 of the output
    were never written. *)
Lemma X6_witness :
  succeeds (invoke 4 short_generator (unit_op 256 16) (empty_memory 1024)) = true
  ∧ ∃ (t : Tensor) (cells : list cell),
      outputs (ctx (world_of (invoke 4 short_generator (unit_op 256 16)
                                (empty_memory 1024)))) !! 0%nat = Some t
      ∧ tensor_data (memory (world_of (invoke 4 short_generator (unit_op 256 16)
                                         (empty_memory 1024)))) t = Some cells
      ∧ cells !! 2%nat = Some None.
Proof.
  split; [reflexivity|].
  apply (X6_unwritten_rows_are_uninitialised 4 short_generator
           (unit_op 256 16) (empty_memory 1024) 2);
    [reflexivity|cbn; lia|reflexivity].
Defined.

Lemma X8_witness :
  ∃ (root1 root2 : positive) (count1 count2 : Z),
    buf (output_tensor (used_memory 1024) 2) = Some (root1, 0, count1)
    ∧ buf (output_tensor
             (memory (world_of (invoke 4 (ramp_generator 4) (unit_op 256 2)
                                  (used_memory 1024)))) 3)
      = Some (root2, 0, count2)
    ∧ root1 ≠ root2.
Proof.
  apply (X8_successive_outputs_do_not_alias 4 (ramp_generator 4)
           (unit_op 256 2) (unit_op 256 3) (used_memory 1024));
    reflexivity.
Defined.
